(** * Appointments pipeline: generator/publisher and dashboard aggregation

    A shallow embedding of [producer.py] and [dashboard.py].

    Conventions of the embedding.
    - Python floats holding money are exact rationals ([Q]); [round(x, 2)]
      and the [.2f] format round to the nearest hundredth, ties to even.
      Sums and quotients are exact here, where the program's carry the
      rounding of doubles.
    - A Python [dict] literal is an association list in insertion order.
    - The random source, the clock, the message channel and the SQL store
      are explicit arguments of the functions that consult them.
    - Console and widget output is an explicit log threaded through the code. *)

From Stdlib Require Import ZArith QArith Qround List String Ascii Bool Lia Lqa.
From Stdlib Require Import DecimalString OrderedTypeEx Sorting.Sorted Sorting.Permutation.
Import ListNotations.

#[local] Open Scope string_scope.
#[local] Open Scope Z_scope.
#[local] Open Scope Q_scope.

(** ** Numbers *)

Module Num.

(** Nearest integer, ties to the even neighbour. *)
Definition round_half_even (q : Q) : Z :=
  let n := Qfloor q in
  match Qcompare (q - inject_Z n) (1 # 2) with
  | Lt => n
  | Gt => (n + 1)%Z
  | Eq => if Z.even n then n else (n + 1)%Z
  end.

(** Python's [round(x, 2)]. *)
Definition round2 (q : Q) : Q := inject_Z (round_half_even (q * 100)) / 100.

(** A value with at most two digits after the decimal point. *)
Definition two_decimals (q : Q) : Prop := exists c : Z, q == inject_Z c / 100.

End Num.

(** ** producer.py *)

Module Producer.
Import Num.

Inductive json : Type :=
| JStr (s : string)
| JNum (q : Q).

(** A Python dict with string keys, in insertion order. *)
Definition dict : Type := list (string * json).


Fixpoint get (k : string) (d : dict) : option json :=
  match d with
  | [] => None
  | (k', v) :: d' => if String.eqb k k' then Some v else get k d'
  end.

(** What one call of [generate_synthetic_appointment] reads from outside:
    five [random.choice] draws, up to two [fake.pyfloat] draws, one
    [uuid.uuid4()] and one [datetime.now().isoformat()]. *)
Record RandomSource : Type := {
  pick_department : nat;
  pick_status : nat;
  pick_city : nat;
  pick_payment_method : nat;
  pick_urgency : nat;
  draw_base_cost : Q;
  draw_copay : Q;
  uuid4 : string;
  now_isoformat : string
}.

(** [random.choice(seq)]: the element at a random index below [len(seq)]. *)
Definition choice (seq : list string) (r : nat) : string :=
  List.nth (Nat.modulo r (List.length seq)) seq "".

(** What [fake.pyfloat(min_value=lo, max_value=hi, right_digits=2)] promises
    of the value [v] it returns. *)
Definition pyfloat_returns (lo hi : Z) (v : Q) : Prop :=
  inject_Z lo <= v /\ v <= inject_Z hi /\ two_decimals v.

Definition faker_contract (rs : RandomSource) : Prop :=
  pyfloat_returns 80 1200 (draw_base_cost rs) /\
  pyfloat_returns 10 80 (draw_copay rs).

Definition departments : list string :=
  ["Cardiology"; "Neurology"; "Orthopedics"; "Pediatrics"; "Dermatology";
   "Oncology"; "Radiology"].
Definition statuses : list string :=
  ["Scheduled"; "Completed"; "Cancelled"; "No-Show"].
Definition cities : list string :=
  ["New York"; "Chicago"; "Los Angeles"; "Houston"; "Phoenix"; "Boston";
   "Seattle"].
Definition payment_methods : list string :=
  ["Insurance"; "Self-Pay"; "Medicare"; "Medicaid"].
Definition urgency_levels : list string :=
  ["Low"; "Medium"; "High"; "Critical"].

(** The local variables of [generate_synthetic_appointment].  [total_cost]
    is the exact sum where the program adds two doubles. *)
Definition payment_method (rs : RandomSource) : string :=
  choice payment_methods (pick_payment_method rs).

Definition base_cost (rs : RandomSource) : Q := draw_base_cost rs.

Definition copay (rs : RandomSource) : Q :=
  if negb (String.eqb (payment_method rs) "Self-Pay") then draw_copay rs else 0.

Definition total_cost (rs : RandomSource) : Q := base_cost rs + copay rs.

Definition generate_synthetic_appointment (rs : RandomSource) : dict :=
  let department := choice departments (pick_department rs) in
  let status := choice statuses (pick_status rs) in
  let city := choice cities (pick_city rs) in
  let urgency := choice urgency_levels (pick_urgency rs) in
  [ ("appointment_id", JStr (substring 0 8 (uuid4 rs)));
    ("status", JStr status);
    ("department", JStr department);
    ("urgency", JStr urgency);
    ("cost", JNum (round2 (total_cost rs)));
    ("timestamp", JStr (now_isoformat rs));
    ("city", JStr city);
    ("payment_method", JStr (payment_method rs));
    ("copay", JNum (round2 (copay rs))) ].

(** *** The publisher *)

Record RecordMetadata : Type := { partition : Z; offset : Z }.

(** The channel's answer to one transmission of a record, as the waiting
    [future.get(timeout=10)] comes to know it.  A transmission that the
    ten seconds cut short is a failure that is not retried. *)
Inductive attempt : Type :=
| Acked (md : RecordMetadata)
| Failed (retriable : bool) (err : string).

(** The keyword arguments given to [KafkaProducer]. *)
Record ProducerConfig : Type := {
  bootstrap_servers : string;
  request_timeout_ms : Z;
  max_block_ms : Z;
  retries : nat
}.

Definition producer_config : ProducerConfig :=
  {| bootstrap_servers := "localhost:9092";
     request_timeout_ms := 30000;
     max_block_ms := 60000;
     retries := 5 |}.

(** [producer.send(...)] followed by [future.get(timeout=10)]: the client
    transmits the record, and re-sends it after a retriable failure while
    its retry budget lasts.  [channel i] is the answer to transmission
    number [i]; [budget] is the number of re-sends still allowed.  The
    result is the record's metadata, or the error that [future.get] raises. *)
Fixpoint send_and_get (budget : nat) (channel : nat -> attempt) (i : nat)
  : string + RecordMetadata :=
  match channel i with
  | Acked md => inr md
  | Failed retriable err =>
      if retriable then
        match budget with
        | O => inl err
        | S budget' => send_and_get budget' channel (S i)
        end
      else inl err
  end.

(** What one iteration of the [while True] loop reads from outside. *)
Record Iteration : Type := {
  entropy : RandomSource;
  channel : nat -> attempt;
  sleep_time : Q
}.

(** What the process prints and does, in order. *)
Inductive output : Type :=
| Connecting
| Connected
| Sending (count : nat) (apt : dict)
| SentTo (md : RecordMetadata)
| Flushed
| Slept (seconds : Q)
| ProducerError (e : string)
| Traceback.

(** The body of [while True], run at most [fuel] times.  [inl e]: the
    exception [e] left the loop.  [inr count]: the loop is still running
    and has published [count] records. *)
Fixpoint publish_loop (fuel : nat) (world : nat -> Iteration) (count : nat)
    (out : list output) : list output * (string + nat) :=
  match fuel with
  | O => (out, inr count)
  | S fuel' =>
      let apt := generate_synthetic_appointment (entropy (world count)) in
      let out := (out ++ [Sending count apt])%list in
      match send_and_get (retries producer_config) (channel (world count)) 0 with
      | inl e => (out, inl e)
      | inr record_metadata =>
          publish_loop fuel' world (S count)
            (out ++ [SentTo record_metadata; Flushed;
                     Slept (sleep_time (world count))])%list
      end
  end.

(** How a run of the process ends. *)
Inductive exit : Type :=
| Raised (e : string)        (* the exception leaves [run_producer] *)
| Running (count : nat).     (* not over after [fuel] iterations *)

(** [run_producer()].  [connect] is the outcome of constructing the
    [KafkaProducer]: [None] on success, [Some e] when it raises [e]. *)
Definition run_producer (fuel : nat) (connect : option string)
    (world : nat -> Iteration) : list output * exit :=
  let handler (out : list output) (e : string) :=
    ((out ++ [ProducerError e; Traceback])%list, Raised e) in
  match connect with
  | Some e => handler [Connecting] e
  | None =>
      match publish_loop fuel world 0 [Connecting; Connected] with
      | (out, inl e) => handler out e
      | (out, inr count) => (out, Running count)
      end
  end.

(** The receipts the process has reported. *)
Definition receipts (out : list output) : list RecordMetadata :=
  flat_map (fun o => match o with SentTo md => [md] | _ => [] end) out.

End Producer.

(** ** dashboard.py *)

Module Dashboard.
Import Num.

(** One row of the [appointments] table: a persisted event, every field
    of which has a value.  [timestamp] is the instant, in microseconds
    since the epoch, that [pd.to_datetime] reads from the column of that
    name; it is consulted only in a frame that has the column. *)
Record Row : Type := {
  appointment_id : string;
  status : string;
  department : string;
  urgency : string;
  cost : Q;
  timestamp : Z;
  city : string;
  payment_method : string;
  copay : Q
}.

(** A [pd.DataFrame]: its column names and its rows, in index order.  The
    script tests for the columns [timestamp] and [copay] by name. *)
Record DataFrame : Type := {
  columns : list string;
  rows : list Row
}.

(** [pd.DataFrame()] *)
Definition empty_frame : DataFrame := {| columns := []; rows := [] |}.

(** [df.empty]: some axis has length zero. *)
Definition empty (df : DataFrame) : bool :=
  (List.length (rows df) =? 0)%nat || (List.length (columns df) =? 0)%nat.

(** [name in df.columns] *)
Definition has_column (name : string) (df : DataFrame) : bool :=
  existsb (String.eqb name) (columns df).

(** *** The store behind [engine] *)

(** The database either answers queries over its [appointments] table,
    whose rows are listed in order of arrival (oldest first), or fails
    every query with an error. *)
Inductive Store : Type :=
| Reachable (table_columns : list string) (table : list Row)
| Unreachable (err : string).

Inductive param : Type :=
| PStr (s : string)
| PInt (n : Z).

Fixpoint lookup (k : string) (params : list (string * param)) : option param :=
  match params with
  | [] => None
  | (k', v) :: rest => if String.eqb k k' then Some v else lookup k rest
  end.

(** [params[k] = v] *)
Fixpoint assign (k : string) (v : param) (params : list (string * param))
  : list (string * param) :=
  match params with
  | [] => [(k, v)]
  | (k', v') :: rest =>
      if String.eqb k k' then (k, v) :: rest else (k', v') :: assign k v rest
  end.

(** [ORDER BY appointment_id DESC]: insertion into a list already in
    descending order of [appointment_id].  SQL leaves the order of rows
    with equal keys open; here they keep their order of arrival, and a
    statement that depends on it assumes pairwise different keys. *)
Fixpoint insert_desc (r : Row) (sorted : list Row) : list Row :=
  match sorted with
  | [] => [r]
  | x :: rest =>
      if String.leb (appointment_id x) (appointment_id r)
      then r :: x :: rest
      else x :: insert_desc r rest
  end.

Definition order_by_appointment_id_desc (l : list Row) : list Row :=
  fold_right insert_desc [] l.

Definition sql_all : string :=
  "SELECT * FROM appointments ORDER BY appointment_id DESC LIMIT :limit".
Definition sql_by_status : string :=
  "SELECT * FROM appointments WHERE status = :status ORDER BY appointment_id DESC LIMIT :limit".

(** [LIMIT :limit] *)
Definition apply_limit (columns : list string) (params : list (string * param))
    (selected : list Row) : string + DataFrame :=
  match lookup "limit" params with
  | Some (PInt n) =>
      if (n <? 0)%Z then inl "LIMIT must not be negative"
      else inr {| columns := columns;
                  rows := firstn (Z.to_nat n)
                            (order_by_appointment_id_desc selected) |}
  | _ => inl "a value is required for bind parameter 'limit'"
  end.

(** [pd.read_sql_query(text(sql), con=engine.connect(), params=params)]
    for the two statements the script can build: the answer, or the
    exception raised. *)
Definition read_sql_query (sql : string) (con : Store)
    (params : list (string * param)) : string + DataFrame :=
  match con with
  | Unreachable err => inl err
  | Reachable cols table =>
      if String.eqb sql sql_all then apply_limit cols params table
      else if String.eqb sql sql_by_status then
        match lookup "status" params with
        | Some (PStr s) =>
            apply_limit cols params
              (filter (fun r => String.eqb (status r) s) table)
        | _ => inl "a value is required for bind parameter 'status'"
        end
      else inl "syntax error"
  end.

(** *** What the page shows *)

Inductive widget : Type :=
| StError (msg : string)
| StWarning (msg : string)
| StMetric (label value : string)
| Sleep (seconds : Z).

(** *** [load_data] *)

(** Python's truth value of [status_filter and status_filter != "All"]. *)
Definition filter_applies (status_filter : option string) : bool :=
  match status_filter with
  | None => false
  | Some s => negb (String.eqb s "") && negb (String.eqb s "All")
  end.

(** [try: body  except Exception as e: handler(e)] *)
Definition try_except {A : Type} (body : string + A)
    (handler : string -> list widget * (string + A))
  : list widget * (string + A) :=
  match body with
  | inr a => ([], inr a)
  | inl e => handler e
  end.

(** The result is what the page shows and either the value returned
    ([inr]) or the exception that leaves the function ([inl]). *)
Definition load_data (engine : Store) (status_filter : option string)
    (limit : Z) : list widget * (string + DataFrame) :=
  let base_query := "SELECT * FROM appointments" in
  let params : list (string * param) := [] in
  let '(base_query, params) :=
    if filter_applies status_filter then
      (base_query ++ " WHERE status = :status",
       assign "status"
         (PStr (match status_filter with Some s => s | None => "" end)) params)
    else (base_query, params) in
  let base_query := base_query ++ " ORDER BY appointment_id DESC LIMIT :limit" in
  let params := assign "limit" (PInt limit) params in
  try_except (read_sql_query base_query engine params)
    (fun e => ([StError ("Error loading data from database: " ++ e)],
               inr empty_frame)).

(** The sidebar's status choices. *)
Definition status_options : list string :=
  ["All"; "Scheduled"; "Completed"; "Cancelled"; "No-Show"].

(** *** Number formats *)

(** The decimal digits of a natural number, grouped in threes by commas. *)
Fixpoint group_thousands (rev_digits : list ascii) (seen : nat) : list ascii :=
  match rev_digits with
  | [] => []
  | d :: ds =>
      match ds with
      | [] => [d]
      | _ :: _ =>
          if (seen =? 2)%nat then d :: ","%char :: group_thousands ds 0
          else d :: group_thousands ds (S seen)
      end
  end.

Definition digits_of (n : Z) : list ascii :=
  list_ascii_of_string (DecimalString.NilZero.string_of_uint (N.to_uint (Z.to_N n))).

Definition with_commas (n : Z) : string :=
  string_of_list_ascii (rev (group_thousands (rev (digits_of n)) 0)).

Definition two_digits (n : Z) : string :=
  string_of_list_ascii (digits_of (n / 10)%Z ++ digits_of (n mod 10)%Z).

(** Python's [f"{x:,.2f}"], on the exact value: the program formats the
    double, which may lie on the other side of a tie. *)
Definition format_2f (x : Q) : string :=
  let hundredths := Z.abs (round_half_even (x * 100)) in
  (if Qlt_le_dec x 0 then "-" else "")
  ++ with_commas (hundredths / 100)%Z ++ "." ++ two_digits (hundredths mod 100)%Z.

(** *** The KPI block *)

(** [Series.sum()], exact where pandas adds doubles. *)
Definition sum (l : list Q) : Q := fold_left Qplus l 0.

(** [Series.mean()]; [None] stands for [NaN]. *)
Definition mean (l : list Q) : option Q :=
  match l with
  | [] => None
  | _ :: _ => Some (sum l / inject_Z (Z.of_nat (List.length l)))
  end.

(** [df[df["status"] == s]] *)
Definition with_status (s : string) (df : DataFrame) : list Row :=
  filter (fun r => String.eqb (status r) s) (rows df).

Record KPIs : Type := {
  total_appts : nat;
  total_cost : Q;
  average_cost : Q;
  completed : nat;
  cancelled : nat;
  completion_rate : Q;
  avg_copay : option Q
}.

Definition kpi_block (df_appointments : DataFrame) : KPIs :=
  let total_appts := List.length (rows df_appointments) in
  let total_cost := sum (map cost (rows df_appointments)) in
  let average_cost :=
    if (0 <? total_appts)%nat
    then total_cost / inject_Z (Z.of_nat total_appts) else 0 in
  let completed := List.length (with_status "Completed" df_appointments) in
  let cancelled := List.length (with_status "Cancelled" df_appointments) in
  let completion_rate :=
    if (0 <? total_appts)%nat
    then inject_Z (Z.of_nat completed) / inject_Z (Z.of_nat total_appts) * 100
    else 0 in
  let avg_copay :=
    if has_column "copay" df_appointments
    then mean (map copay (rows df_appointments)) else Some 0 in
  {| total_appts := total_appts;
     total_cost := total_cost;
     average_cost := average_cost;
     completed := completed;
     cancelled := cancelled;
     completion_rate := completion_rate;
     avg_copay := avg_copay |}.

(** The five [metric] widgets. *)
Definition kpi_metrics (k : KPIs) : list widget :=
  [ StMetric "Total Appointments"
      (string_of_list_ascii (digits_of (Z.of_nat (total_appts k))));
    StMetric "Total Cost" ("$" ++ format_2f (total_cost k));
    StMetric "Average Cost" ("$" ++ format_2f (average_cost k));
    StMetric "Completion Rate" (format_2f (completion_rate k) ++ "%");
    StMetric "Avg Copay"
      (match avg_copay k with
       | Some c => "$" ++ format_2f c
       | None => "$nan"
       end) ].

(** *** The status mix *)

Record StatusGroup : Type := {
  group_status : string;
  appointments : nat;
  revenue : Q
}.

(** One more row for [groupby("status")]: the groups are kept in ascending
    order of their key. *)
Fixpoint add_to_groups (r : Row) (groups : list StatusGroup) : list StatusGroup :=
  match groups with
  | [] => [ {| group_status := status r; appointments := 1; revenue := cost r |} ]
  | g :: rest =>
      match String.compare (status r) (group_status g) with
      | Eq => {| group_status := group_status g;
                 appointments := S (appointments g);
                 revenue := revenue g + cost r |} :: rest
      | Lt => {| group_status := status r; appointments := 1; revenue := cost r |}
              :: g :: rest
      | Gt => g :: add_to_groups r rest
      end
  end.

(** [groupby("status").agg(appointments=("appointment_id", "count"),
    revenue=("cost", "sum")).reset_index()] *)
Definition groupby_status (l : list Row) : list StatusGroup :=
  fold_left (fun groups r => add_to_groups r groups) l [].

(** [sort_values("appointments", ascending=False)]; groups with equal
    counts keep their relative order. *)
Fixpoint insert_by_appointments (g : StatusGroup) (sorted : list StatusGroup)
  : list StatusGroup :=
  match sorted with
  | [] => [g]
  | x :: rest =>
      if (appointments x <=? appointments g)%nat
      then g :: x :: rest
      else x :: insert_by_appointments g rest
  end.

Definition status_summary (df_appointments : DataFrame) : list StatusGroup :=
  fold_right insert_by_appointments [] (groupby_status (rows df_appointments)).

(** *** The per-minute trend *)

Record TrendBucket : Type := {
  bucket_start : Z;
  bucket_appointments : nat;
  bucket_revenue : Q
}.

(** One minute, in microseconds. *)
Definition minute : Z := 60000000.

(** [sort_values("timestamp")]: ascending. *)
Fixpoint insert_by_timestamp (r : Row) (sorted : list Row) : list Row :=
  match sorted with
  | [] => [r]
  | x :: rest =>
      if (timestamp r <=? timestamp x)%Z
      then r :: x :: rest
      else x :: insert_by_timestamp r rest
  end.

Definition sort_by_timestamp (l : list Row) : list Row :=
  fold_right insert_by_timestamp [] l.

(** The values of the index after [set_index("timestamp")]. *)
Definition stamps (l : list Row) : list Z := map timestamp l.

(** The one-minute bin [[m * minute, (m + 1) * minute)] that holds [t]. *)
Definition bin_of (t : Z) : Z := (t / minute)%Z.

Definition in_bin (m : Z) (r : Row) : bool := (bin_of (timestamp r) =? m)%Z.

Fixpoint Zrange (lo : Z) (n : nat) : list Z :=
  match n with
  | O => []
  | S n' => lo :: Zrange (lo + 1)%Z n'
  end.

(** [resample("1Min").agg(appointments=("appointment_id", "count"),
    revenue=("cost", "sum")).reset_index()]: one bucket for every minute
    from the earliest index value to the latest, also for a minute that
    holds no row. *)
Definition resample_1min (df_time : list Row) : list TrendBucket :=
  match stamps df_time with
  | [] => []
  | t :: ts =>
      let first := fold_left Z.min ts t in
      let last := fold_left Z.max ts t in
      map (fun m =>
             {| bucket_start := (m * minute)%Z;
                bucket_appointments := List.length (filter (in_bin m) df_time);
                bucket_revenue := sum (map cost (filter (in_bin m) df_time)) |})
          (Zrange (bin_of first) (Z.to_nat (bin_of last - bin_of first + 1)))
  end.

Definition volume_cost_trend (df_appointments : DataFrame) : list TrendBucket :=
  if has_column "timestamp" df_appointments
  then resample_1min (sort_by_timestamp (rows df_appointments))
  else [].

(** *** The statement and its parameters *)

(** The first seven statements of [load_data]: the text of the statement
    and the parameters bound to it. *)
Definition build_query (status_filter : option string) (limit : Z)
  : string * list (string * param) :=
  let base_query := "SELECT * FROM appointments" in
  let params : list (string * param) := [] in
  let '(base_query, params) :=
    if filter_applies status_filter then
      (base_query ++ " WHERE status = :status",
       assign "status"
         (PStr (match status_filter with Some s => s | None => "" end)) params)
    else (base_query, params) in
  let base_query := base_query ++ " ORDER BY appointment_id DESC LIMIT :limit" in
  let params := assign "limit" (PInt limit) params in
  (base_query, params).

(** *** Urgency by department *)

Record UrgencyGroup : Type := {
  group_department : string;
  group_urgency : string;
  group_size : nat
}.

(** The order of the keys of [groupby(["department", "urgency"])]. *)
Definition compare_department_urgency (r : Row) (g : UrgencyGroup)
  : comparison :=
  match String.compare (department r) (group_department g) with
  | Eq => String.compare (urgency r) (group_urgency g)
  | c => c
  end.

Fixpoint add_to_urgency_groups (r : Row) (groups : list UrgencyGroup)
  : list UrgencyGroup :=
  match groups with
  | [] => [ {| group_department := department r; group_urgency := urgency r;
               group_size := 1 |} ]
  | g :: rest =>
      match compare_department_urgency r g with
      | Eq => {| group_department := group_department g;
                 group_urgency := group_urgency g;
                 group_size := S (group_size g) |} :: rest
      | Lt => {| group_department := department r; group_urgency := urgency r;
                 group_size := 1 |} :: g :: rest
      | Gt => g :: add_to_urgency_groups r rest
      end
  end.

(** [groupby(["department", "urgency"]).size().reset_index(name="appointments")] *)
Definition groupby_department_urgency (l : list Row) : list UrgencyGroup :=
  fold_left (fun groups r => add_to_urgency_groups r groups) l [].

(** [sort_values("appointments", ascending=False)]; groups with equal
    sizes keep their relative order. *)
Fixpoint insert_by_size (g : UrgencyGroup) (sorted : list UrgencyGroup)
  : list UrgencyGroup :=
  match sorted with
  | [] => [g]
  | x :: rest =>
      if (group_size x <=? group_size g)%nat
      then g :: x :: rest
      else x :: insert_by_size g rest
  end.

Definition urgency_by_dept (df_appointments : DataFrame) : list UrgencyGroup :=
  fold_right insert_by_size []
    (groupby_department_urgency (rows df_appointments)).

(** *** The payment summary *)

(** What [groupby("payment_method")] has gathered for one method. *)
Record PaymentTotals : Type := {
  totals_method : string;
  cost_sum : Q;
  copay_sum : Q;
  rows_seen : nat
}.

Fixpoint add_to_payment_totals (r : Row) (groups : list PaymentTotals)
  : list PaymentTotals :=
  match groups with
  | [] => [ {| totals_method := payment_method r; cost_sum := cost r;
               copay_sum := copay r; rows_seen := 1 |} ]
  | g :: rest =>
      match String.compare (payment_method r) (totals_method g) with
      | Eq => {| totals_method := totals_method g;
                 cost_sum := cost_sum g + cost r;
                 copay_sum := copay_sum g + copay r;
                 rows_seen := S (rows_seen g) |} :: rest
      | Lt => {| totals_method := payment_method r; cost_sum := cost r;
                 copay_sum := copay r; rows_seen := 1 |} :: g :: rest
      | Gt => g :: add_to_payment_totals r rest
      end
  end.

Definition groupby_payment_method (l : list Row) : list PaymentTotals :=
  fold_left (fun groups r => add_to_payment_totals r groups) l [].

Record PaymentGroup : Type := {
  group_method : string;
  avg_cost : Q;
  group_avg_copay : Q;
  volume : nat
}.

(** [agg(avg_cost=("cost", "mean"), avg_copay=("copay", "mean"),
    volume=("appointment_id", "count"))] *)
Definition aggregate_payment (g : PaymentTotals) : PaymentGroup :=
  {| group_method := totals_method g;
     avg_cost := cost_sum g / inject_Z (Z.of_nat (rows_seen g));
     group_avg_copay := copay_sum g / inject_Z (Z.of_nat (rows_seen g));
     volume := rows_seen g |}.

(** [sort_values("avg_cost", ascending=False)]; groups with equal averages
    keep their relative order. *)
Fixpoint insert_by_avg_cost (g : PaymentGroup) (sorted : list PaymentGroup)
  : list PaymentGroup :=
  match sorted with
  | [] => [g]
  | x :: rest =>
      if Qle_bool (avg_cost x) (avg_cost g)
      then g :: x :: rest
      else x :: insert_by_avg_cost g rest
  end.

(** The aggregation names the [copay] column, which the frame may lack:
    pandas then raises a [KeyError]. *)
Definition payment_summary (df_appointments : DataFrame)
  : string + list PaymentGroup :=
  if has_column "copay" df_appointments then
    inr (fold_right insert_by_avg_cost []
           (map aggregate_payment
              (groupby_payment_method (rows df_appointments))))
  else inl "Column(s) ['copay'] do not exist".

(** [df_appointments.head(10)] *)
Definition raw_preview (df_appointments : DataFrame) : list Row :=
  firstn 10 (rows df_appointments).

(** *** One pass of the [while True] loop *)

(** What a pass ends with: the notice that no records were found, or the
    five rollups that feed the charts. *)
Inductive view : Type :=
| Waiting
| Displaying (kpis : KPIs) (status_mix : list StatusGroup)
             (urgency : list UrgencyGroup) (payments : list PaymentGroup)
             (trend : list TrendBucket).

(** One pass, from [load_data] to [time.sleep].  The metrics are on the
    page before the rollups are computed, so an exception of the payment
    summary leaves the loop after them and before the sleep.  The charts,
    the table of raw rows and the caption are not part of the model. *)
Definition refresh_cycle (engine : Store) (selected_status : string)
    (limit_records update_interval : Z) : list widget * (string + view) :=
  let '(shown, result) := load_data engine (Some selected_status) limit_records in
  match result with
  | inl e => (shown, inl e)
  | inr df_appointments =>
      if empty df_appointments then
        ((shown ++ [StWarning "No records found. Waiting for data...";
                    Sleep update_interval])%list,
         inr Waiting)
      else
        let shown := (shown ++ kpi_metrics (kpi_block df_appointments))%list in
        match payment_summary df_appointments with
        | inl e => (shown, inl e)
        | inr payments =>
            ((shown ++ [Sleep update_interval])%list,
             inr (Displaying (kpi_block df_appointments)
                             (status_summary df_appointments)
                             (urgency_by_dept df_appointments)
                             payments
                             (volume_cost_trend df_appointments)))
        end
  end.

End Dashboard.

(** * Vocabulary of the statements and sample data *)

Section PublisherVocabulary.
Import Producer.

(** A well-behaved random source: an insured patient, a base cost of
    123.45 and a copay of 10.50. *)
Definition sample_source : RandomSource :=
  {| pick_department := 3;
     pick_status := 1;
     pick_city := 2;
     pick_payment_method := 0;
     pick_urgency := 6;
     draw_base_cost := 12345 # 100;
     draw_copay := 1050 # 100;
     uuid4 := "123e4567-e89b-42d3-a456-426614174000";
     now_isoformat := "2026-01-01T09:30:00.000000" |}.

(** The answers to transmissions [i .. i + budget] are all failures. *)
Definition all_failed (ch : nat -> attempt) (i budget : nat) : Prop :=
  forall j, (i <= j <= i + budget)%nat -> exists r e, ch j = Failed r e.

(** A channel that times out on every transmission of every record. *)
Definition dead_channel : nat -> Iteration :=
  fun _ => {| entropy := sample_source;
              channel := fun _ => Failed true "KafkaTimeoutError";
              sleep_time := 1 |}.

(** The record numbers the process has announced, in order. *)
Definition announced (out : list output) : list nat :=
  flat_map (fun o => match o with Sending count _ => [count] | _ => [] end) out.

(** The errors the process has reported. *)
Definition reported (out : list output) : list string :=
  flat_map (fun o => match o with ProducerError e => [e] | _ => [] end) out.

End PublisherVocabulary.

Section DashboardVocabulary.
Import Dashboard.

(** [a] may stand before [b] in descending order of [appointment_id]. *)
Definition id_ge (a b : Row) : Prop :=
  String.leb (appointment_id b) (appointment_id a) = true.

(** The rows of the table that the [WHERE] clause, when there is one, keeps. *)
Definition selected (status_filter : option string) (table : list Row)
  : list Row :=
  match status_filter with
  | Some s =>
      if filter_applies status_filter
      then filter (fun r => String.eqb (status r) s) table
      else table
  | None => table
  end.

(** The sum of the per-status counts of a status-mix table. *)
Definition counted (groups : list StatusGroup) : nat :=
  list_sum (map appointments groups).

(** The count that a status-mix table gives for the status [s]. *)
Definition count_for (s : string) (groups : list StatusGroup) : nat :=
  counted (filter (fun g => String.eqb (group_status g) s) groups).

(** No two rows of the store's table share an [appointment_id], so that
    [ORDER BY appointment_id] leaves no order open. *)
Definition distinct_ids (engine : Store) : Prop :=
  match engine with
  | Reachable _ table => NoDup (map appointment_id table)
  | Unreachable _ => True
  end.

(** Two rows, listed in order of arrival: the later one has the smaller
    identifier. *)
Definition older_row : Row :=
  {| appointment_id := "f3a91c07"; status := "Completed";
     department := "Cardiology"; urgency := "Low"; cost := 250;
     timestamp := 1767259800000000%Z; city := "Boston";
     payment_method := "Insurance"; copay := 25 |}.

Definition newer_row : Row :=
  {| appointment_id := "0b52e8d4"; status := "Cancelled";
     department := "Oncology"; urgency := "High"; cost := 900;
     timestamp := 1767259860000000%Z; city := "Seattle";
     payment_method := "Self-Pay"; copay := 0 |}.

Definition event_columns : list string :=
  ["appointment_id"; "status"; "department"; "urgency"; "cost"; "timestamp";
   "city"; "payment_method"; "copay"].

(** The dataset of the KPI scenario: three rows that differ from one
    another in every field. *)
Definition scenario_row1 : Row :=
  {| appointment_id := "a81f03c2"; status := "Completed";
     department := "Cardiology"; urgency := "Low"; cost := 100;
     timestamp := 1767259800000000%Z; city := "Boston";
     payment_method := "Insurance"; copay := 20 |}.

Definition scenario_row2 : Row :=
  {| appointment_id := "17c4e9b0"; status := "Cancelled";
     department := "Oncology"; urgency := "High"; cost := 50;
     timestamp := 1767259985000000%Z; city := "Seattle";
     payment_method := "Self-Pay"; copay := 0 |}.

Definition scenario_row3 : Row :=
  {| appointment_id := "d2290a6e"; status := "Completed";
     department := "Radiology"; urgency := "Medium"; cost := 200;
     timestamp := 1767259861500000%Z; city := "Chicago";
     payment_method := "Medicare"; copay := 35 |}.

Definition scenario_frame : DataFrame :=
  {| columns := event_columns;
     rows := [scenario_row1; scenario_row2; scenario_row3] |}.

(** [a] may stand before [b] in descending order of the count. *)
Definition count_ge (a b : StatusGroup) : Prop :=
  (appointments b <= appointments a)%nat.

(** [a] stands before [b] in ascending order of the status. *)
Definition key_lt (a b : StatusGroup) : Prop :=
  String_as_OT.lt (group_status a) (group_status b).

(** Each bucket of the trend starts one minute after the one before. *)
Fixpoint minute_steps (trend : list TrendBucket) : Prop :=
  match trend with
  | [] => True
  | b :: rest =>
      match rest with
      | [] => True
      | b' :: _ => bucket_start b' = (bucket_start b + minute)%Z
      end /\ minute_steps rest
  end.

(** The sum of the sizes of an urgency-by-department table. *)
Definition sized (groups : list UrgencyGroup) : nat :=
  list_sum (map group_size groups).

(** [a] may stand before [b] in descending order of the size. *)
Definition size_ge (a b : UrgencyGroup) : Prop :=
  (group_size b <= group_size a)%nat.

(** The sum of the volumes of a payment summary. *)
Definition volumes (groups : list PaymentGroup) : nat :=
  list_sum (map volume groups).

(** [a] may stand before [b] in descending order of the average cost. *)
Definition avg_cost_ge (a b : PaymentGroup) : Prop :=
  avg_cost b <= avg_cost a.

End DashboardVocabulary.

(** * Properties *)

(** ** The definitions at work *)

Section Examples.
Import Num Dashboard.

Example round2_ties_to_even :
  round2 (125 # 1000) == 12 # 100 /\ round2 (135 # 1000) == 14 # 100.
Proof. split; reflexivity. Qed.

Example format_2f_thousands : format_2f (12345678 # 10) = "1,234,567.80".
Proof. reflexivity. Qed.

Example format_2f_small_negative : format_2f (- (1 # 1000)) = "-0.00".
Proof. reflexivity. Qed.

Example generate_sample :
  Producer.generate_synthetic_appointment sample_source
  = [ ("appointment_id", Producer.JStr "123e4567");
      ("status", Producer.JStr "Completed");
      ("department", Producer.JStr "Pediatrics");
      ("urgency", Producer.JStr "High");
      ("cost", Producer.JNum (round2 ((12345 # 100) + (1050 # 100))));
      ("timestamp", Producer.JStr "2026-01-01T09:30:00.000000");
      ("city", Producer.JStr "Los Angeles");
      ("payment_method", Producer.JStr "Insurance");
      ("copay", Producer.JNum (round2 (1050 # 100))) ].
Proof. reflexivity. Qed.

Example load_data_filtered :
  load_data (Reachable event_columns (rows scenario_frame)) (Some "Completed") 50
  = ([], inr {| columns := event_columns;
                rows := [scenario_row3; scenario_row1] |}).
Proof. reflexivity. Qed.

Example load_data_all :
  load_data (Reachable event_columns (rows scenario_frame)) (Some "All") 2
  = ([], inr {| columns := event_columns;
                rows := [scenario_row3; scenario_row1] |}).
Proof. reflexivity. Qed.

Example load_data_store_down :
  load_data (Unreachable "connection refused") (Some "All") 200
  = ([StError "Error loading data from database: connection refused"],
     inr empty_frame).
Proof. reflexivity. Qed.

Example status_summary_scenario :
  map (fun g => (group_status g, appointments g)) (status_summary scenario_frame)
  = [("Completed", 2%nat); ("Cancelled", 1%nat)].
Proof. reflexivity. Qed.

(** The scenario spans four minutes, one of them without a row. *)
Example trend_scenario :
  map (fun b => (bucket_start b, bucket_appointments b))
    (volume_cost_trend scenario_frame)
  = [ (1767259800000000%Z, 1%nat); (1767259860000000%Z, 1%nat);
      (1767259920000000%Z, 0%nat); (1767259980000000%Z, 1%nat) ].
Proof. reflexivity. Qed.

Example producer_stops_at_third_record :
  let world := fun count : nat =>
    {| Producer.entropy := sample_source;
       Producer.channel := fun i =>
         if (count =? 2)%nat then Producer.Failed true "KafkaTimeoutError"
         else if (i =? 1)%nat
              then Producer.Acked {| Producer.partition := 0;
                                     Producer.offset := Z.of_nat count |}
              else Producer.Failed true "NotLeaderForPartitionError";
       Producer.sleep_time := 1 |} in
  snd (Producer.run_producer 10 None world) = Producer.Raised "KafkaTimeoutError"
  /\ Producer.receipts (fst (Producer.run_producer 10 None world))
     = [ {| Producer.partition := 0; Producer.offset := 0 |};
         {| Producer.partition := 0; Producer.offset := 1 |} ].
Proof. split; reflexivity. Qed.

End Examples.

(** ** Rounding *)

Section Rounding.
Import Num.

Lemma round_half_even_comp (q q' : Q) :
  q == q' -> round_half_even q = round_half_even q'.
Proof.
  intros E. unfold round_half_even.
  rewrite (Qfloor_comp _ _ E).
  assert (C : Qcompare (q - inject_Z (Qfloor q')) (1 # 2)
              = Qcompare (q' - inject_Z (Qfloor q')) (1 # 2))
    by (apply Qcompare_comp; [rewrite E|]; reflexivity).
  rewrite C. reflexivity.
Qed.

Lemma round_half_even_range (q : Q) :
  (Qfloor q <= round_half_even q <= Qfloor q + 1)%Z.
Proof.
  unfold round_half_even.
  destruct (Qcompare _ _); [destruct (Z.even _)| |]; lia.
Qed.

Lemma round_half_even_mono (q q' : Q) :
  q <= q' -> (round_half_even q <= round_half_even q')%Z.
Proof.
  intros L.
  pose proof (Qfloor_resp_le _ _ L) as F.
  destruct (Z.eq_dec (Qfloor q) (Qfloor q')) as [E|N].
  - unfold round_half_even. rewrite E.
    assert (R : q - inject_Z (Qfloor q') <= q' - inject_Z (Qfloor q')) by lra.
    destruct (Qcompare_spec (q - inject_Z (Qfloor q')) (1 # 2)) as [A|A|A];
      destruct (Qcompare_spec (q' - inject_Z (Qfloor q')) (1 # 2)) as [B|B|B];
      try destruct (Z.even (Qfloor q')); try lia; exfalso; lra.
  - pose proof (round_half_even_range q). pose proof (round_half_even_range q').
    lia.
Qed.

Lemma round_half_even_inject (z : Z) : round_half_even (inject_Z z) = z.
Proof.
  unfold round_half_even. rewrite Qfloor_Z.
  assert (C : Qcompare (inject_Z z - inject_Z z) (1 # 2) = Lt)
    by (apply (proj1 (Qlt_alt _ _)); lra).
  rewrite C. reflexivity.
Qed.

Lemma round2_comp (q q' : Q) : q == q' -> round2 q == round2 q'.
Proof.
  intros E. unfold round2.
  rewrite (round_half_even_comp (q * 100) (q' * 100)) by (rewrite E; reflexivity).
  reflexivity.
Qed.

Lemma round2_mono (q q' : Q) : q <= q' -> round2 q <= round2 q'.
Proof.
  intros L. unfold round2.
  assert (M : (round_half_even (q * 100) <= round_half_even (q' * 100))%Z)
    by (apply round_half_even_mono; lra).
  rewrite Zle_Qle in M. unfold Qdiv.
  apply Qmult_le_compat_r; [exact M | discriminate].
Qed.

Lemma round2_two_decimals (q : Q) : two_decimals q -> round2 q == q.
Proof.
  intros [c E]. unfold round2.
  rewrite (round_half_even_comp (q * 100) (inject_Z c)).
  - rewrite round_half_even_inject. symmetry. exact E.
  - rewrite E. field.
Qed.

Lemma round2_zero : round2 0 == 0.
Proof. reflexivity. Qed.

Lemma round_half_even_nearest (q : Q) :
  inject_Z (round_half_even q) - (1 # 2) <= q /\
  q <= inject_Z (round_half_even q) + (1 # 2).
Proof.
  pose proof (Qfloor_le q) as L. pose proof (Qlt_floor q) as U.
  rewrite inject_Z_plus in U. change (inject_Z 1) with 1 in U.
  unfold round_half_even.
  destruct (Qcompare_spec (q - inject_Z (Qfloor q)) (1 # 2)) as [E|E|E].
  - destruct (Z.even (Qfloor q)).
    + split; lra.
    + rewrite inject_Z_plus. change (inject_Z 1) with 1. split; lra.
  - split; lra.
  - rewrite inject_Z_plus. change (inject_Z 1) with 1. split; lra.
Qed.

Lemma round2_within_half_cent (q : Q) :
  round2 q - (1 # 200) <= q /\ q <= round2 q + (1 # 200).
Proof.
  destruct (round_half_even_nearest (q * 100)) as [L U].
  unfold round2.
  set (z := inject_Z (round_half_even (q * 100))) in *.
  assert (E : z / 100 == z * (1 # 100)) by (unfold Qdiv; reflexivity).
  rewrite E. split; lra.
Qed.

Lemma round2_has_two_decimals (q : Q) : two_decimals (round2 q).
Proof. exists (round_half_even (q * 100)). reflexivity. Qed.

End Rounding.

(** ** The generator *)

Section Generator.
Import Num Producer.

Lemma copay_nonneg (rs : RandomSource) :
  faker_contract rs -> 0 <= copay rs.
Proof.
  intros [_ [Lo _]]. unfold copay.
  destruct (negb _); [|lra].
  change (inject_Z 10) with 10 in Lo. lra.
Qed.

Lemma copay_two_decimals (rs : RandomSource) :
  faker_contract rs -> two_decimals (copay rs).
Proof.
  intros [_ [_ [_ D]]]. unfold copay.
  destruct (negb _); [exact D|].
  exists 0%Z. reflexivity.
Qed.

Lemma base_cost_bounds (rs : RandomSource) :
  faker_contract rs -> 80 <= base_cost rs /\ base_cost rs <= 1200.
Proof. intros [[Lo [Hi _]] _]. split; assumption. Qed.

Lemma get_payment_method (rs : RandomSource) :
  get "payment_method" (generate_synthetic_appointment rs)
  = Some (JStr (payment_method rs)).
Proof. reflexivity. Qed.

Lemma sample_source_ok : faker_contract sample_source.
Proof.
  repeat split; try (vm_compute; discriminate).
  - exists 12345%Z. reflexivity.
  - exists 1050%Z. reflexivity.
Qed.

(** C2. Every generated event carries a [copay] and a [cost] with
    [0 <= copay <= cost], and its [copay] is zero whenever its
    [payment_method] is "Self-Pay". *)
Theorem generated_copay_within_cost (rs : RandomSource) :
  faker_contract rs ->
  exists c t : Q,
    get "copay" (generate_synthetic_appointment rs) = Some (JNum c) /\
    get "cost" (generate_synthetic_appointment rs) = Some (JNum t) /\
    0 <= c /\ c <= t /\
    (get "payment_method" (generate_synthetic_appointment rs)
       = Some (JStr "Self-Pay") -> c == 0).
Proof.
  intros F.
  pose proof (copay_nonneg rs F) as C0.
  destruct (base_cost_bounds rs F) as [B0 _].
  exists (round2 (copay rs)), (round2 (total_cost rs)).
  split; [reflexivity|]. split; [reflexivity|]. split; [|split].
  - rewrite <- round2_zero. apply round2_mono. exact C0.
  - apply round2_mono. unfold total_cost. lra.
  - rewrite get_payment_method. intros E. injection E as E.
    unfold copay. rewrite E. reflexivity.
Qed.

Lemma generated_copay_within_cost_witness :
  exists c t : Q,
    get "copay" (generate_synthetic_appointment sample_source) = Some (JNum c) /\
    get "cost" (generate_synthetic_appointment sample_source) = Some (JNum t) /\
    0 <= c /\ c <= t /\
    (get "payment_method" (generate_synthetic_appointment sample_source)
       = Some (JStr "Self-Pay") -> c == 0).
Proof. exact (generated_copay_within_cost sample_source sample_source_ok). Defined.

(** C7. The [cost] of every generated event is [base_cost + copay] rounded
    to two decimal places: it has at most two decimals and lies within half
    a cent of the sum, whatever the draws.  With draws that respect the
    [pyfloat] arguments it is also the rounded sum of [base_cost] and the
    emitted [copay], and [cost >= base_cost >= 0]. *)
Theorem generated_cost_is_rounded_sum (rs : RandomSource) :
  exists c t : Q,
    get "copay" (generate_synthetic_appointment rs) = Some (JNum c) /\
    get "cost" (generate_synthetic_appointment rs) = Some (JNum t) /\
    t = round2 (base_cost rs + copay rs) /\
    two_decimals t /\
    t - (1 # 200) <= base_cost rs + copay rs /\
    base_cost rs + copay rs <= t + (1 # 200) /\
    (faker_contract rs ->
     t == round2 (base_cost rs + c) /\
     base_cost rs <= t /\ 0 <= base_cost rs).
Proof.
  exists (round2 (copay rs)), (round2 (total_cost rs)).
  split; [reflexivity|]. split; [reflexivity|]. split; [reflexivity|].
  split; [apply round2_has_two_decimals|].
  split; [apply (round2_within_half_cent (total_cost rs))|].
  split; [apply (round2_within_half_cent (total_cost rs))|].
  intros F.
  pose proof (copay_nonneg rs F) as C0.
  pose proof (copay_two_decimals rs F) as CD.
  destruct (base_cost_bounds rs F) as [B0 _].
  assert (BD : two_decimals (base_cost rs)) by (destruct F as [[_ [_ D]] _]; exact D).
  split; [|split].
  - apply round2_comp. unfold total_cost.
    rewrite (round2_two_decimals _ CD). reflexivity.
  - rewrite <- (round2_two_decimals _ BD) at 1.
    apply round2_mono. unfold total_cost. lra.
  - lra.
Qed.

Lemma generated_cost_is_rounded_sum_witness :
  exists c t : Q,
    get "copay" (generate_synthetic_appointment sample_source) = Some (JNum c) /\
    get "cost" (generate_synthetic_appointment sample_source) = Some (JNum t) /\
    t = round2 (base_cost sample_source + copay sample_source) /\
    two_decimals t /\
    t - (1 # 200) <= base_cost sample_source + copay sample_source /\
    base_cost sample_source + copay sample_source <= t + (1 # 200) /\
    t == round2 (base_cost sample_source + c) /\
    base_cost sample_source <= t /\ 0 <= base_cost sample_source.
Proof.
  destruct (generated_cost_is_rounded_sum sample_source)
    as [c [t [Hc [Ht [E [D [L [U K]]]]]]]].
  exists c, t.
  repeat (split; [assumption|]).
  exact (K sample_source_ok).
Defined.


End Generator.

(** ** The publisher *)

Section Publisher.
Import Producer.

Lemma send_and_get_all_failed (budget : nat) (ch : nat -> attempt) (i : nat) :
  all_failed ch i budget -> exists e, send_and_get budget ch i = inl e.
Proof.
  revert i. induction budget as [|b IH]; intros i H.
  - destruct (H i ltac:(lia)) as [r [e E]]. cbn. rewrite E.
    exists e. destruct r; reflexivity.
  - destruct (H i ltac:(lia)) as [r [e E]]. cbn. rewrite E.
    destruct r; [|exists e; reflexivity].
    apply IH. intros j Hj. apply H. lia.
Qed.

Lemma receipts_app (a b : list output) :
  receipts (a ++ b) = (receipts a ++ receipts b)%list.
Proof. apply flat_map_app. Qed.

Lemma publish_loop_raises (world : nat -> Iteration) (k : nat) (e : string) :
  send_and_get (retries producer_config) (channel (world k)) 0 = inl e ->
  forall fuel count out,
    (count <= k < count + fuel)%nat ->
    (forall j, (count <= j < k)%nat ->
       exists md, send_and_get (retries producer_config)
                    (channel (world j)) 0 = inr md) ->
    exists mid,
      publish_loop fuel world count out
      = ((out ++ mid ++
          [Sending k (generate_synthetic_appointment (entropy (world k)))])%list,
         inl e) /\
      List.length (receipts mid) = (k - count)%nat.
Proof.
  intros Hk fuel. induction fuel as [|f IH]; intros count out R Ok; [lia|].
  destruct (Nat.eq_dec count k) as [->|N].
  - exists []. cbn -[send_and_get retries]. rewrite Hk. split; [reflexivity|].
    rewrite Nat.sub_diag. reflexivity.
  - destruct (Ok count ltac:(lia)) as [md Emd].
    cbn -[send_and_get retries]. rewrite Emd.
    destruct (IH (S count)
                (((out ++ [Sending count
                     (generate_synthetic_appointment (entropy (world count)))])
                  ++ [SentTo md; Flushed; Slept (sleep_time (world count))])%list))
      as [mid [E L]]; [lia | intros j Hj; apply Ok; lia |].
    exists ([Sending count (generate_synthetic_appointment (entropy (world count)));
             SentTo md; Flushed; Slept (sleep_time (world count))] ++ mid)%list.
    split.
    + cbn -[send_and_get retries] in E. rewrite E. f_equal.
      rewrite <- !app_assoc. reflexivity.
    + rewrite receipts_app, length_app, L. cbn. lia.
Qed.

(** C9. When the first [k] records are acknowledged and every one of the
    six transmissions of record [k] (the first and the five re-sends)
    fails, the send yields an error and no metadata, the process reports
    that error and a traceback right after announcing record [k], the
    exception leaves [run_producer] however long the loop is allowed to
    run, and the process has reported [k] receipts, none of them for
    record [k]. *)
Theorem fatal_publish_after_six_failures
    (world : nat -> Iteration) (k fuel : nat) :
  (forall j, (j < k)%nat ->
     exists md, send_and_get (retries producer_config)
                  (channel (world j)) 0 = inr md) ->
  (forall i, (i < 6)%nat -> exists r e, channel (world k) i = Failed r e) ->
  (k < fuel)%nat ->
  exists (e : string) (before : list output),
    send_and_get (retries producer_config) (channel (world k)) 0 = inl e /\
    run_producer fuel None world
    = ((before ++
        [Sending k (generate_synthetic_appointment (entropy (world k)));
         ProducerError e; Traceback])%list,
       Raised e) /\
    List.length (receipts before) = k.
Proof.
  intros Ok Bad F.
  destruct (send_and_get_all_failed (retries producer_config)
              (channel (world k)) 0) as [e E].
  { intros j Hj. apply Bad. cbn in Hj. lia. }
  destruct (publish_loop_raises world k e E fuel 0%nat [Connecting; Connected])
    as [mid [P L]]; [lia | intros j Hj; apply Ok; lia |].
  exists e, ([Connecting; Connected] ++ mid)%list.
  split; [exact E|]. split.
  - unfold run_producer. rewrite P. f_equal.
    rewrite <- !app_assoc. reflexivity.
  - rewrite receipts_app, length_app, L. cbn. lia.
Qed.

Lemma fatal_publish_after_six_failures_witness :
  exists (e : string) (before : list output),
    send_and_get (retries producer_config) (channel (dead_channel 0%nat)) 0
    = inl e /\
    run_producer 3 None dead_channel
    = ((before ++
        [Sending 0 (generate_synthetic_appointment (entropy (dead_channel 0%nat)));
         ProducerError e; Traceback])%list,
       Raised e) /\
    List.length (receipts before) = 0%nat.
Proof.
  apply (fatal_publish_after_six_failures dead_channel 0 3).
  - intros j Hj. lia.
  - intros i _. exists true, "KafkaTimeoutError". reflexivity.
  - lia.
Defined.

End Publisher.

(** ** The order of strings *)

Section StringOrder.

Lemma string_leb_iff (a b : string) :
  String.leb a b = true <-> a = b \/ String_as_OT.lt a b.
Proof.
  unfold String.leb.
  destruct (String.compare a b) eqn:C.
  - apply String_as_OT.cmp_eq in C. intuition.
  - apply String_as_OT.cmp_lt in C. intuition.
  - split; [discriminate|]. intros [E|L].
    + apply String_as_OT.cmp_eq in E. unfold String_as_OT.cmp in E. congruence.
    + apply String_as_OT.cmp_lt in L. unfold String_as_OT.cmp in L. congruence.
Qed.

Lemma string_leb_trans (a b c : string) :
  String.leb a b = true -> String.leb b c = true -> String.leb a c = true.
Proof.
  rewrite !string_leb_iff.
  intros [->|L1] [->|L2]; auto.
  right. exact (String_as_OT.lt_trans _ _ _ L1 L2).
Qed.

Lemma string_leb_false (a b : string) :
  String.leb a b = false -> String.leb b a = true.
Proof.
  intros F. destruct (String.leb_total a b) as [T|T]; congruence.
Qed.

End StringOrder.

(** ** The query adapter *)

Section QueryAdapter.
Import Dashboard.

Lemma insert_desc_perm (r : Row) (l : list Row) :
  Permutation (r :: l) (insert_desc r l).
Proof.
  induction l as [|x l IH]; cbn; [reflexivity|].
  destruct (String.leb _ _); [reflexivity|].
  rewrite perm_swap. apply perm_skip. exact IH.
Qed.

Lemma order_by_perm (l : list Row) :
  Permutation l (order_by_appointment_id_desc l).
Proof.
  induction l as [|r l IH]; cbn; [constructor|].
  rewrite <- insert_desc_perm. apply perm_skip. exact IH.
Qed.

Lemma insert_desc_sorted (r : Row) (l : list Row) :
  Sorted id_ge l -> Sorted id_ge (insert_desc r l).
Proof.
  induction 1 as [|x l S IH H]; cbn.
  - repeat constructor.
  - destruct (String.leb (appointment_id x) (appointment_id r)) eqn:C.
    + repeat constructor; assumption.
    + constructor; [exact IH|].
      destruct H as [|y l H]; cbn.
      * constructor. apply string_leb_false. exact C.
      * destruct (String.leb (appointment_id y) (appointment_id r));
          constructor; [apply string_leb_false; exact C | exact H].
Qed.

Lemma order_by_sorted (l : list Row) :
  StronglySorted id_ge (order_by_appointment_id_desc l).
Proof.
  apply Sorted_StronglySorted.
  - intros a b c Hab Hbc. unfold id_ge in *.
    exact (string_leb_trans _ _ _ Hbc Hab).
  - induction l as [|r l IH]; cbn; [constructor|].
    apply insert_desc_sorted. exact IH.
Qed.

Lemma strongly_sorted_app {A : Type} (R : A -> A -> Prop) (l1 l2 : list A) :
  StronglySorted R (l1 ++ l2) ->
  StronglySorted R l1 /\ forall a b, In a l1 -> In b l2 -> R a b.
Proof.
  induction l1 as [|x l1 IH]; cbn; intros S.
  - split; [constructor | contradiction].
  - inversion S as [|? ? S' F]; subst.
    destruct (IH S') as [S1 Cross].
    rewrite Forall_app in F. destruct F as [F1 F2].
    split; [constructor; assumption|].
    intros a b [->|Ha] Hb.
    + rewrite Forall_forall in F2. apply F2. exact Hb.
    + apply Cross; assumption.
Qed.

Lemma load_data_query (status_filter : option string) (limit : Z)
    (engine : Store) :
  load_data engine status_filter limit
  = try_except
      (match engine with
       | Unreachable err => inl err
       | Reachable cols table =>
           if (limit <? 0)%Z then inl "LIMIT must not be negative"
           else inr {| columns := cols;
                       rows := firstn (Z.to_nat limit)
                                 (order_by_appointment_id_desc
                                    (selected status_filter table)) |}
       end)
      (fun e => ([StError ("Error loading data from database: " ++ e)],
                 inr empty_frame)).
Proof.
  unfold load_data, selected.
  destruct status_filter as [s|]; [destruct (filter_applies (Some s))|];
    destruct engine; reflexivity.
Qed.

Lemma load_data_reachable (cols : list string) (table : list Row)
    (status_filter : option string) (limit : Z) :
  (0 <= limit)%Z ->
  load_data (Reachable cols table) status_filter limit
  = ([], inr {| columns := cols;
                rows := firstn (Z.to_nat limit)
                          (order_by_appointment_id_desc
                             (selected status_filter table)) |}).
Proof.
  intros L. rewrite load_data_query.
  destruct (Z.ltb_spec limit 0); [lia | reflexivity].
Qed.

Lemma selected_status (s : string) (table : list Row) (r : Row) :
  s <> "" -> s <> "All" -> In r (selected (Some s) table) -> status r = s.
Proof.
  intros N1 N2. unfold selected, filter_applies.
  destruct (String.eqb_spec s ""); [contradiction|].
  destruct (String.eqb_spec s "All"); [contradiction|]. cbn.
  rewrite filter_In. intros [_ E]. apply String.eqb_eq. exact E.
Qed.

(** C1. The code at a failing input: a table of two rows of which the
    later arrival has the smaller identifier.  With the limit 1
    [load_data] returns the older row, not the most recent one; with the
    limit 50 and the selector's "All" it lists the older row first. *)
Theorem load_data_returns_older_row :
  (timestamp older_row < timestamp newer_row)%Z /\
  load_data (Reachable event_columns [older_row; newer_row]) None 1
  = ([], inr {| columns := event_columns; rows := [older_row] |}) /\
  load_data (Reachable event_columns [older_row; newer_row]) (Some "All") 50
  = ([], inr {| columns := event_columns; rows := [older_row; newer_row] |}) /\
  [older_row] <> firstn 1 (rev [older_row; newer_row]) /\
  [older_row; newer_row] <> rev [older_row; newer_row].
Proof.
  split; [reflexivity|]. split; [reflexivity|]. split; [reflexivity|].
  split; cbn; intros E; injection E as E; discriminate E.
Qed.

(** X28. What the query does return.  For a positive limit, [load_data]
    returns at most [limit] rows in descending order of [appointment_id];
    under a filter that is neither empty nor "All" every returned row has
    that status; and when the store answers, the rows returned are, among
    the rows that the filter keeps, [limit] rows with the greatest
    [appointment_id] (all of them when there are fewer). *)
Theorem load_data_top_by_appointment_id
    (engine : Store) (status_filter : option string) (limit : Z) :
  (0 < limit)%Z ->
  exists shown df,
    load_data engine status_filter limit = (shown, inr df) /\
    (List.length (rows df) <= Z.to_nat limit)%nat /\
    StronglySorted id_ge (rows df) /\
    (forall s, status_filter = Some s -> s <> "" -> s <> "All" ->
       forall r, In r (rows df) -> status r = s) /\
    (forall cols table, engine = Reachable cols table ->
       exists rest,
         Permutation (rows df ++ rest) (selected status_filter table) /\
         List.length (rows df)
         = Nat.min (Z.to_nat limit)
             (List.length (selected status_filter table)) /\
         forall r x, In r (rows df) -> In x rest -> id_ge r x).
Proof.
  intros L. destruct engine as [cols table|err].
  - rewrite load_data_reachable by lia.
    set (sorted := order_by_appointment_id_desc (selected status_filter table)).
    set (n := Z.to_nat limit).
    assert (P : Permutation (selected status_filter table) sorted)
      by apply order_by_perm.
    assert (S : StronglySorted id_ge (firstn n sorted ++ skipn n sorted))
      by (rewrite firstn_skipn; apply order_by_sorted).
    apply strongly_sorted_app in S. destruct S as [S Cross].
    eexists _, _. split; [reflexivity|]. cbn [rows].
    split; [apply firstn_le_length|]. split; [exact S|]. split.
    + intros s -> N1 N2 r I.
      apply (selected_status s table r N1 N2).
      apply (Permutation_in _ (Permutation_sym P)).
      rewrite <- (firstn_skipn n sorted). apply in_or_app. left. exact I.
    + intros cols' table' E. injection E as <- <-.
      exists (skipn n sorted). split; [|split].
      * rewrite firstn_skipn. symmetry. exact P.
      * rewrite length_firstn, (Permutation_length P). reflexivity.
      * exact Cross.
  - rewrite load_data_query. cbn.
    eexists _, _. split; [reflexivity|]. cbn.
    split; [lia|]. split; [constructor|]. split.
    + intros; contradiction.
    + intros cols table E. discriminate E.
Qed.

Lemma load_data_top_by_appointment_id_witness :
  exists shown df,
    load_data (Reachable event_columns [older_row; newer_row])
      (Some "Cancelled") 1 = (shown, inr df) /\
    (List.length (rows df) <= Z.to_nat 1)%nat /\
    StronglySorted id_ge (rows df) /\
    (forall s, Some "Cancelled" = Some s -> s <> "" -> s <> "All" ->
       forall r, In r (rows df) -> status r = s) /\
    (forall cols table,
       Reachable event_columns [older_row; newer_row] = Reachable cols table ->
       exists rest,
         Permutation (rows df ++ rest) (selected (Some "Cancelled") table) /\
         List.length (rows df)
         = Nat.min (Z.to_nat 1)
             (List.length (selected (Some "Cancelled") table)) /\
         forall r x, In r (rows df) -> In x rest -> id_ge r x).
Proof.
  apply (load_data_top_by_appointment_id
           (Reachable event_columns [older_row; newer_row])
           (Some "Cancelled") 1).
  lia.
Defined.

(** C4. [load_data] always returns and never raises.  When the query fails
    (the store is unreachable, or the statement is rejected, as for a
    negative limit) it returns the empty frame and shows the error; a frame
    is returned together with a message only in that case.  The refresh
    loop then takes the branch of an empty result: the same warning, the
    same sleep and the waiting state. *)
Theorem load_data_recovers_from_query_failure
    (engine : Store) (status_filter : option string) (limit : Z) :
  exists shown df,
    load_data engine status_filter limit = (shown, inr df) /\
    (shown = [] \/
     exists e, shown = [StError ("Error loading data from database: " ++ e)] /\
               df = empty_frame) /\
    (forall err, engine = Unreachable err ->
       shown = [StError ("Error loading data from database: " ++ err)] /\
       df = empty_frame) /\
    ((limit < 0)%Z -> shown <> [] /\ df = empty_frame) /\
    (forall selected_status update_interval cols,
       status_filter = Some selected_status -> shown <> [] ->
       refresh_cycle engine selected_status limit update_interval
       = ((shown ++ [StWarning "No records found. Waiting for data...";
                     Sleep update_interval])%list, inr Waiting) /\
       refresh_cycle (Reachable cols []) selected_status (Z.abs limit)
         update_interval
       = ([StWarning "No records found. Waiting for data...";
           Sleep update_interval], inr Waiting)).
Proof.
  assert (W : forall selected_status update_interval cols,
             refresh_cycle (Reachable cols []) selected_status (Z.abs limit)
               update_interval
             = ([StWarning "No records found. Waiting for data...";
                 Sleep update_interval], inr Waiting)).
  { intros s i cols. unfold refresh_cycle.
    rewrite load_data_reachable by lia.
    replace (selected (Some s) []) with (@nil Row)
      by (unfold selected; destruct (filter_applies _); reflexivity).
    cbn [order_by_appointment_id_desc fold_right].
    rewrite firstn_nil. reflexivity. }
  destruct engine as [cols table|err].
  - destruct (Z.ltb_spec limit 0) as [Neg|Pos].
    + assert (E : load_data (Reachable cols table) status_filter limit
                  = ([StError ("Error loading data from database: "
                               ++ "LIMIT must not be negative")],
                     inr empty_frame)).
      { rewrite load_data_query.
        destruct (Z.ltb_spec limit 0); [reflexivity | lia]. }
      eexists _, _. split; [exact E|].
      split; [right; eexists; split; reflexivity|].
      split; [intros err D; discriminate D|].
      split; [intros _; split; [discriminate | reflexivity]|].
      intros s i cols' -> _. split; [|apply W].
      unfold refresh_cycle. rewrite E. reflexivity.
    + rewrite load_data_reachable by lia.
      eexists _, _. split; [reflexivity|].
      split; [left; reflexivity|].
      split; [intros err D; discriminate D|].
      split; [intros Neg; lia|].
      intros s i cols' _ N. contradiction.
  - assert (E : load_data (Unreachable err) status_filter limit
                = ([StError ("Error loading data from database: " ++ err)],
                   inr empty_frame))
      by (rewrite load_data_query; reflexivity).
    eexists _, _. split; [exact E|].
    split; [right; eexists; split; reflexivity|].
    split; [intros err' D; injection D as <-; split; reflexivity|].
    split; [intros _; split; [discriminate | reflexivity]|].
    intros s i cols' -> _. split; [|apply W].
    unfold refresh_cycle. rewrite E. reflexivity.
Qed.

(** C6, as stated, fails: the selector does not offer six options. *)
Lemma status_options_not_six : List.length status_options <> 6%nat.
Proof. discriminate. Qed.

(** C6, amended. The status selector offers exactly five fixed options:
    "All" and the four statuses of the generator. *)
Theorem status_options_five :
  List.length status_options = 5%nat /\
  NoDup status_options /\
  status_options = ("All" :: Producer.statuses)%list.
Proof.
  split; [reflexivity|]. split; [|reflexivity].
  repeat constructor; cbn; intuition discriminate.
Qed.

End QueryAdapter.

(** ** The aggregation engine *)

Section Aggregation.
Import Num Dashboard.

Lemma counted_cons (g : StatusGroup) (groups : list StatusGroup) :
  counted (g :: groups) = (appointments g + counted groups)%nat.
Proof. reflexivity. Qed.

Lemma counted_add (r : Row) (groups : list StatusGroup) :
  counted (add_to_groups r groups) = S (counted groups).
Proof.
  induction groups as [|g rest IH]; cbn [add_to_groups]; [reflexivity|].
  destruct (String.compare (status r) (group_status g));
    rewrite !counted_cons; cbn [appointments]; [lia | lia |].
  rewrite IH. lia.
Qed.

Lemma compare_eq_eqb (a b : string) :
  String.compare a b = Eq -> String.eqb b a = true.
Proof.
  intros C. apply String_as_OT.cmp_eq in C. subst. apply String.eqb_refl.
Qed.

Lemma count_for_cons (s : string) (g : StatusGroup)
    (groups : list StatusGroup) :
  count_for s (g :: groups)
  = ((if String.eqb (group_status g) s then appointments g else 0)
     + count_for s groups)%nat.
Proof.
  unfold count_for. cbn [filter].
  destruct (String.eqb (group_status g) s); [apply counted_cons | reflexivity].
Qed.

Lemma count_for_add (s : string) (r : Row) (groups : list StatusGroup) :
  count_for s (add_to_groups r groups)
  = ((if String.eqb (status r) s then 1 else 0) + count_for s groups)%nat.
Proof.
  induction groups as [|g rest IH]; cbn [add_to_groups].
  - rewrite count_for_cons. reflexivity.
  - destruct (String.compare (status r) (group_status g)) eqn:C;
      rewrite !count_for_cons; cbn [group_status appointments].
    + rewrite (proj1 (String.eqb_eq _ _) (compare_eq_eqb _ _ C)).
      destruct (String.eqb (status r) s); lia.
    + lia.
    + rewrite IH. lia.
Qed.

Lemma groupby_status_from (l : list Row) (groups : list StatusGroup) :
  counted (fold_left (fun gs r => add_to_groups r gs) l groups)
  = (List.length l + counted groups)%nat /\
  forall s,
    count_for s (fold_left (fun gs r => add_to_groups r gs) l groups)
    = (List.length (filter (fun r => String.eqb (status r) s) l)
       + count_for s groups)%nat.
Proof.
  revert groups. induction l as [|r l IH]; intros groups; cbn [fold_left].
  - split; reflexivity.
  - destruct (IH (add_to_groups r groups)) as [T C]. split.
    + rewrite T, counted_add. cbn [List.length]. lia.
    + intros s. rewrite C, count_for_add. cbn [filter].
      destruct (String.eqb (status r) s); cbn [List.length]; lia.
Qed.

Lemma insert_by_appointments_perm (g : StatusGroup) (l : list StatusGroup) :
  Permutation (g :: l) (insert_by_appointments g l).
Proof.
  induction l as [|x l IH]; cbn; [reflexivity|].
  destruct (appointments x <=? appointments g)%nat; [reflexivity|].
  rewrite perm_swap. apply perm_skip. exact IH.
Qed.

Lemma status_summary_perm (df : DataFrame) :
  Permutation (groupby_status (rows df)) (status_summary df).
Proof.
  unfold status_summary.
  induction (groupby_status (rows df)) as [|g l IH]; cbn; [constructor|].
  rewrite <- insert_by_appointments_perm. apply perm_skip. exact IH.
Qed.

Lemma counted_perm (l l' : list StatusGroup) :
  Permutation l l' -> counted l = counted l'.
Proof.
  induction 1; rewrite ?counted_cons; lia.
Qed.

Lemma count_for_perm (s : string) (l l' : list StatusGroup) :
  Permutation l l' -> count_for s l = count_for s l'.
Proof.
  intros P. unfold count_for. apply counted_perm.
  induction P; cbn.
  - constructor.
  - destruct (String.eqb (group_status x) s); [apply perm_skip|]; assumption.
  - destruct (String.eqb (group_status x) s), (String.eqb (group_status y) s);
      try reflexivity. apply perm_swap.
  - etransitivity; eassumption.
Qed.

(** C8. For every dataset the KPI count is the number of rows, the
    per-status counts of the status mix add up to that number, and the
    count the status mix gives for a status is the number of rows with
    that status. *)
Theorem counts_equal_row_count (df : DataFrame) :
  total_appts (kpi_block df) = List.length (rows df) /\
  counted (status_summary df) = List.length (rows df) /\
  forall s, count_for s (status_summary df) = List.length (with_status s df).
Proof.
  split; [reflexivity|].
  destruct (groupby_status_from (rows df) []) as [T C]. split.
  - rewrite <- (counted_perm _ _ (status_summary_perm df)).
    unfold groupby_status. rewrite T. cbn. lia.
  - intros s. rewrite <- (count_for_perm s _ _ (status_summary_perm df)).
    unfold groupby_status, with_status. rewrite C. cbn. lia.
Qed.

Lemma format_2f_comp (x y : Q) : x == y -> format_2f x = format_2f y.
Proof.
  intros E. unfold format_2f.
  rewrite (round_half_even_comp (x * 100) (y * 100)) by (rewrite E; reflexivity).
  destruct (Qlt_le_dec x 0), (Qlt_le_dec y 0); try reflexivity; exfalso; lra.
Qed.

(** C3. For a dataset of three rows with the statuses Completed,
    Cancelled, Completed and the costs 100.00, 50.00, 200.00 the KPI block
    computes the count 3, the total cost 350.00, the average cost 350/3,
    shown as 116.67, 2 completed and 1 cancelled rows, and the completion
    rate 200/3, shown as 66.67%. *)
Theorem kpi_scenario (df : DataFrame) (r1 r2 r3 : Row) :
  rows df = [r1; r2; r3] ->
  status r1 = "Completed" -> status r2 = "Cancelled" ->
  status r3 = "Completed" ->
  cost r1 == 100 -> cost r2 == 50 -> cost r3 == 200 ->
  total_appts (kpi_block df) = 3%nat /\
  total_cost (kpi_block df) == 350 /\
  average_cost (kpi_block df) == 350 / 3 /\
  round2 (average_cost (kpi_block df)) == 11667 # 100 /\
  completed (kpi_block df) = 2%nat /\
  cancelled (kpi_block df) = 1%nat /\
  completion_rate (kpi_block df) == 200 / 3 /\
  round2 (completion_rate (kpi_block df)) == 6667 # 100 /\
  exists shown_copay,
    kpi_metrics (kpi_block df)
    = [ StMetric "Total Appointments" "3";
        StMetric "Total Cost" "$350.00";
        StMetric "Average Cost" "$116.67";
        StMetric "Completion Rate" "66.67%";
        StMetric "Avg Copay" shown_copay ].
Proof.
  intros R S1 S2 S3 C1 C2 C3.
  assert (N : total_appts (kpi_block df) = 3%nat)
    by (unfold kpi_block; cbn [total_appts]; rewrite R; reflexivity).
  assert (T : total_cost (kpi_block df) == 350).
  { unfold kpi_block. cbn [total_cost]. rewrite R.
    unfold sum. cbn [map fold_left]. rewrite C1, C2, C3. reflexivity. }
  assert (A : average_cost (kpi_block df) == 350 / 3).
  { unfold kpi_block in *. cbn [average_cost total_cost] in *.
    rewrite R in *. cbn [List.length Nat.ltb Nat.leb].
    rewrite T. reflexivity. }
  assert (Cp : completed (kpi_block df) = 2%nat).
  { unfold kpi_block, with_status. cbn [completed]. rewrite R.
    cbn [filter]. rewrite S1, S2, S3. reflexivity. }
  assert (Cc : cancelled (kpi_block df) = 1%nat).
  { unfold kpi_block, with_status. cbn [cancelled]. rewrite R.
    cbn [filter]. rewrite S1, S2, S3. reflexivity. }
  assert (Rt : completion_rate (kpi_block df) == 200 / 3).
  { unfold kpi_block in *. cbn [completion_rate completed] in *.
    rewrite Cp. rewrite R. reflexivity. }
  repeat split; try assumption.
  - rewrite (round2_comp _ _ A). reflexivity.
  - rewrite (round2_comp _ _ Rt). reflexivity.
  - eexists. unfold kpi_metrics.
    rewrite N, (format_2f_comp _ _ T), (format_2f_comp _ _ A),
      (format_2f_comp _ _ Rt).
    reflexivity.
Qed.

Lemma kpi_scenario_witness :
  total_appts (kpi_block scenario_frame) = 3%nat /\
  total_cost (kpi_block scenario_frame) == 350 /\
  average_cost (kpi_block scenario_frame) == 350 / 3 /\
  round2 (average_cost (kpi_block scenario_frame)) == 11667 # 100 /\
  completed (kpi_block scenario_frame) = 2%nat /\
  cancelled (kpi_block scenario_frame) = 1%nat /\
  completion_rate (kpi_block scenario_frame) == 200 / 3 /\
  round2 (completion_rate (kpi_block scenario_frame)) == 6667 # 100 /\
  exists shown_copay,
    kpi_metrics (kpi_block scenario_frame)
    = [ StMetric "Total Appointments" "3";
        StMetric "Total Cost" "$350.00";
        StMetric "Average Cost" "$116.67";
        StMetric "Completion Rate" "66.67%";
        StMetric "Avg Copay" shown_copay ].
Proof.
  apply (kpi_scenario scenario_frame scenario_row1 scenario_row2 scenario_row3);
    reflexivity.
Defined.

(** *** The trend *)

Lemma insert_by_timestamp_perm (r : Row) (l : list Row) :
  Permutation (r :: l) (insert_by_timestamp r l).
Proof.
  induction l as [|x l IH]; cbn; [reflexivity|].
  destruct (_ <=? _)%Z; [reflexivity|].
  rewrite perm_swap. apply perm_skip. exact IH.
Qed.

Lemma sort_by_timestamp_perm (l : list Row) :
  Permutation l (sort_by_timestamp l).
Proof.
  induction l as [|r l IH]; cbn; [constructor|].
  rewrite <- insert_by_timestamp_perm. apply perm_skip. exact IH.
Qed.

Lemma fold_min_le (ts : list Z) (t x : Z) :
  In x (t :: ts) -> (fold_left Z.min ts t <= x)%Z.
Proof.
  revert t x. induction ts as [|y ts IH]; intros t x; cbn [fold_left].
  - intros [->|[]]. lia.
  - intros [->|[->|I]].
    + transitivity (Z.min x y); [apply IH; left; reflexivity | lia].
    + transitivity (Z.min t x); [apply IH; left; reflexivity | lia].
    + apply IH. right. exact I.
Qed.

Lemma fold_max_ge (ts : list Z) (t x : Z) :
  In x (t :: ts) -> (x <= fold_left Z.max ts t)%Z.
Proof.
  revert t x. induction ts as [|y ts IH]; intros t x; cbn [fold_left].
  - intros [->|[]]. lia.
  - intros [->|[->|I]].
    + transitivity (Z.max x y); [lia | apply IH; left; reflexivity].
    + transitivity (Z.max t x); [lia | apply IH; left; reflexivity].
    + apply IH. right. exact I.
Qed.

Lemma bin_of_mono (a b : Z) : (a <= b)%Z -> (bin_of a <= bin_of b)%Z.
Proof. intros L. unfold bin_of, minute. apply Z.div_le_mono; lia. Qed.

Lemma list_sum_cons (a : nat) (l : list nat) :
  list_sum (a :: l) = (a + list_sum l)%nat.
Proof. reflexivity. Qed.

Lemma list_sum_zero {A : Type} (l : list A) :
  list_sum (map (fun _ => 0%nat) l) = 0%nat.
Proof.
  induction l as [|a l IH]; cbn [map]; [reflexivity|].
  rewrite list_sum_cons, IH. reflexivity.
Qed.

Lemma list_sum_plus {A : Type} (f g : A -> nat) (l : list A) :
  list_sum (map (fun x => (f x + g x)%nat) l)
  = (list_sum (map f l) + list_sum (map g l))%nat.
Proof.
  induction l as [|a l IH]; cbn [map]; [reflexivity|].
  rewrite !list_sum_cons, IH. lia.
Qed.

Lemma no_bin_above (b lo : Z) (n : nat) :
  (b < lo)%Z ->
  list_sum (map (fun m => if (b =? m)%Z then 1%nat else 0%nat) (Zrange lo n))
  = 0%nat.
Proof.
  revert lo. induction n as [|n IH]; intros lo L; [reflexivity|].
  cbn [Zrange map]. rewrite list_sum_cons, IH by lia.
  destruct (Z.eqb_spec b lo); [lia | reflexivity].
Qed.

(** Exactly one minute of a range holds a given bin. *)
Lemma one_bin_in_range (b lo : Z) (n : nat) :
  (lo <= b < lo + Z.of_nat n)%Z ->
  list_sum (map (fun m => if (b =? m)%Z then 1%nat else 0%nat) (Zrange lo n))
  = 1%nat.
Proof.
  revert lo. induction n as [|n IH]; intros lo R; [lia|].
  cbn [Zrange map]. rewrite list_sum_cons.
  destruct (Z.eqb_spec b lo) as [->|N].
  - rewrite no_bin_above by lia. reflexivity.
  - rewrite IH by lia. reflexivity.
Qed.

Lemma in_bin_length (m : Z) (r : Row) (l : list Row) :
  List.length (filter (in_bin m) (r :: l))
  = ((if in_bin m r then 1 else 0) + List.length (filter (in_bin m) l))%nat.
Proof. cbn [filter]. destruct (in_bin m r); reflexivity. Qed.

(** Rows whose bins all lie in a range of minutes are counted once each. *)
Lemma bins_cover (l : list Row) (lo : Z) (n : nat) :
  (forall r, In r l -> (lo <= bin_of (timestamp r) < lo + Z.of_nat n)%Z) ->
  list_sum (map (fun m => List.length (filter (in_bin m) l)) (Zrange lo n))
  = List.length l.
Proof.
  induction l as [|r l IH]; intros H.
  - cbn [filter List.length]. apply list_sum_zero.
  - rewrite (map_ext _ _ (fun m => in_bin_length m r l)).
    rewrite (list_sum_plus (fun m => if in_bin m r then 1%nat else 0%nat)).
    rewrite IH by (intros x I; apply H; right; exact I).
    unfold in_bin.
    rewrite (one_bin_in_range _ _ _ (H r (or_introl eq_refl))).
    reflexivity.
Qed.

Lemma resample_counts (l : list Row) :
  list_sum (map bucket_appointments (resample_1min l)) = List.length l.
Proof.
  unfold resample_1min.
  destruct (stamps l) as [|t ts] eqn:S.
  - destruct l; [reflexivity | discriminate S].
  - rewrite map_map. cbn [bucket_appointments].
    apply bins_cover. intros r I.
    assert (Ix : In (timestamp r) (t :: ts))
      by (rewrite <- S; apply in_map; exact I).
    pose proof (bin_of_mono _ _ (fold_min_le ts t _ Ix)).
    pose proof (bin_of_mono _ _ (fold_max_ge ts t _ Ix)).
    lia.
Qed.

(** C5. In a dataset that has the timestamp column, so that every row has
    a timestamp, the counts of the per-minute buckets add up to the number
    of rows; in a dataset without the timestamp column, so that no row has
    one, the trend is empty. *)
Theorem trend_counts (df : DataFrame) :
  (has_column "timestamp" df = true ->
   list_sum (map bucket_appointments (volume_cost_trend df))
   = List.length (rows df)) /\
  (has_column "timestamp" df = false -> volume_cost_trend df = []).
Proof.
  unfold volume_cost_trend. split; intros C; rewrite C; [|reflexivity].
  rewrite (Permutation_length (sort_by_timestamp_perm (rows df))).
  apply resample_counts.
Qed.

Lemma trend_counts_witness :
  list_sum (map bucket_appointments (volume_cost_trend scenario_frame)) = 3%nat /\
  volume_cost_trend {| columns := ["appointment_id"; "status"; "cost"];
                       rows := rows scenario_frame |} = [].
Proof.
  split.
  - apply (proj1 (trend_counts scenario_frame)). reflexivity.
  - apply (proj2 (trend_counts _)). reflexivity.
Defined.

End Aggregation.

(** * Further properties *)

(** ** More on rounding *)

Section RoundingError.
Import Num.

Lemma round_half_even_close (q : Q) :
  inject_Z (round_half_even q) - (1 # 2) <= q /\
  q <= inject_Z (round_half_even q) + (1 # 2).
Proof.
  pose proof (Qfloor_le q) as L. pose proof (Qlt_floor q) as U.
  rewrite inject_Z_plus in U. change (inject_Z 1) with 1 in U.
  unfold round_half_even.
  destruct (Qcompare_spec (q - inject_Z (Qfloor q)) (1 # 2)) as [E|E|E].
  - destruct (Z.even (Qfloor q)).
    + split; lra.
    + rewrite inject_Z_plus. change (inject_Z 1) with 1. split; lra.
  - split; lra.
  - rewrite inject_Z_plus. change (inject_Z 1) with 1. split; lra.
Qed.

Lemma round2_close (q : Q) :
  round2 q - (1 # 200) <= q /\ q <= round2 q + (1 # 200).
Proof.
  destruct (round_half_even_close (q * 100)) as [L U].
  unfold round2.
  set (z := inject_Z (round_half_even (q * 100))) in *.
  assert (E : z / 100 == z * (1 # 100)) by (unfold Qdiv; reflexivity).
  rewrite E. split; lra.
Qed.


End RoundingError.

(** ** More on the generator *)

Section GeneratorFields.
Import Num Producer.

Lemma choice_in (seq : list string) (r : nat) :
  seq <> [] -> In (choice seq r) seq.
Proof.
  intros N. unfold choice. apply nth_In.
  apply Nat.mod_upper_bound. destruct seq; [contradiction | discriminate].
Qed.

(** X1. Whatever the random source, the status, department, city, payment
    method and urgency of a generated event are members of the generator's
    fixed lists. *)
Theorem generated_categories (rs : RandomSource) :
  exists st dp ct pm ur : string,
    get "status" (generate_synthetic_appointment rs) = Some (JStr st) /\
    get "department" (generate_synthetic_appointment rs) = Some (JStr dp) /\
    get "city" (generate_synthetic_appointment rs) = Some (JStr ct) /\
    get "payment_method" (generate_synthetic_appointment rs) = Some (JStr pm) /\
    get "urgency" (generate_synthetic_appointment rs) = Some (JStr ur) /\
    In st statuses /\ In dp departments /\ In ct cities /\
    In pm payment_methods /\ In ur urgency_levels.
Proof.
  exists (choice statuses (pick_status rs)),
         (choice departments (pick_department rs)),
         (choice cities (pick_city rs)),
         (choice payment_methods (pick_payment_method rs)),
         (choice urgency_levels (pick_urgency rs)).
  repeat split; try reflexivity; apply choice_in; discriminate.
Qed.

Lemma substring_prefix_length (n : nat) (s : string) :
  String.length (substring 0 n s) = Nat.min n (String.length s).
Proof.
  revert s. induction n as [|n IH]; intros s.
  - destruct s; reflexivity.
  - destruct s as [|c s]; [reflexivity|]. cbn. rewrite IH. reflexivity.
Qed.

Lemma substring_is_prefix (n : nat) (s : string) :
  prefix (substring 0 n s) s = true.
Proof.
  revert s. induction n as [|n IH]; intros s.
  - destruct s; reflexivity.
  - destruct s as [|c s]; [reflexivity|]. cbn.
    destruct (ascii_dec c c) as [_|N]; [apply IH | contradiction].
Qed.

(** X2. The [appointment_id] of a generated event is a prefix of the
    uuid it was cut from, of eight characters when the uuid has at least
    eight (a uuid4 string has thirty-six) and of the whole uuid otherwise. *)
Theorem generated_appointment_id (rs : RandomSource) :
  exists id : string,
    get "appointment_id" (generate_synthetic_appointment rs) = Some (JStr id) /\
    prefix id (uuid4 rs) = true /\
    String.length id = Nat.min 8 (String.length (uuid4 rs)).
Proof.
  exists (substring 0 8 (uuid4 rs)).
  split; [reflexivity|]. split.
  - apply substring_is_prefix.
  - apply substring_prefix_length.
Qed.


(** X4. With draws that respect the [pyfloat] arguments the emitted
    [cost] lies between 80 and 1280, and the emitted [cost] less the
    emitted [copay] is within half a cent of the base cost. *)
Theorem generated_cost_range (rs : RandomSource) :
  faker_contract rs ->
  exists c t : Q,
    get "copay" (generate_synthetic_appointment rs) = Some (JNum c) /\
    get "cost" (generate_synthetic_appointment rs) = Some (JNum t) /\
    80 <= t /\ t <= 1280 /\
    base_cost rs - (1 # 200) <= t - c /\
    t - c <= base_cost rs + (1 # 200).
Proof.
  intros F.
  pose proof (copay_nonneg rs F) as C0.
  pose proof (copay_two_decimals rs F) as CD.
  destruct (base_cost_bounds rs F) as [B0 B1].
  assert (C1 : copay rs <= 80).
  { unfold copay. destruct (negb _); [|lra].
    destruct F as [_ [_ [Hi _]]]. change (inject_Z 80) with 80 in Hi. exact Hi. }
  assert (Ec : round2 (copay rs) == copay rs)
    by (apply round2_two_decimals; exact CD).
  destruct (round2_close (total_cost rs)) as [L U].
  assert (Lo : round2 80 <= round2 (total_cost rs))
    by (apply round2_mono; unfold total_cost; lra).
  assert (Hi : round2 (total_cost rs) <= round2 1280)
    by (apply round2_mono; unfold total_cost; lra).
  assert (E80 : round2 80 == 80) by reflexivity.
  assert (E1280 : round2 1280 == 1280) by reflexivity.
  exists (round2 (copay rs)), (round2 (total_cost rs)).
  split; [reflexivity|]. split; [reflexivity|].
  assert (T : total_cost rs == base_cost rs + copay rs) by reflexivity.
  rewrite Ec. repeat split; lra.
Qed.

Lemma generated_cost_range_witness :
  exists c t : Q,
    get "copay" (generate_synthetic_appointment sample_source) = Some (JNum c) /\
    get "cost" (generate_synthetic_appointment sample_source) = Some (JNum t) /\
    80 <= t /\ t <= 1280 /\
    base_cost sample_source - (1 # 200) <= t - c /\
    t - c <= base_cost sample_source + (1 # 200).
Proof. exact (generated_cost_range sample_source sample_source_ok). Defined.

(** X5. With draws that respect the [pyfloat] arguments, the emitted
    [copay] is zero exactly when the payment method is "Self-Pay", and
    lies between 10 and 80 otherwise. *)
Theorem generated_copay_zero_iff_self_pay (rs : RandomSource) :
  faker_contract rs ->
  exists c : Q,
    get "copay" (generate_synthetic_appointment rs) = Some (JNum c) /\
    (c == 0 <->
     get "payment_method" (generate_synthetic_appointment rs)
     = Some (JStr "Self-Pay")) /\
    (get "payment_method" (generate_synthetic_appointment rs)
     <> Some (JStr "Self-Pay") -> 10 <= c /\ c <= 80).
Proof.
  intros F.
  pose proof (copay_two_decimals rs F) as CD.
  assert (Ec : round2 (copay rs) == copay rs) by (apply round2_two_decimals; exact CD).
  exists (round2 (copay rs)). split; [reflexivity|].
  rewrite get_payment_method, Ec. unfold copay.
  destruct F as [_ [Lo [Hi _]]].
  change (inject_Z 10) with 10 in Lo. change (inject_Z 80) with 80 in Hi.
  destruct (String.eqb_spec (payment_method rs) "Self-Pay") as [E|N]; cbn [negb].
  - rewrite E. split; [split; reflexivity|]. intros C. contradiction.
  - split; [|intros _; split; assumption].
    split; [intros Z0; exfalso; lra|].
    intros E. injection E as E. contradiction.
Qed.

Lemma generated_copay_zero_iff_self_pay_witness :
  exists c : Q,
    get "copay" (generate_synthetic_appointment sample_source) = Some (JNum c) /\
    (c == 0 <->
     get "payment_method" (generate_synthetic_appointment sample_source)
     = Some (JStr "Self-Pay")) /\
    (get "payment_method" (generate_synthetic_appointment sample_source)
     <> Some (JStr "Self-Pay") -> 10 <= c /\ c <= 80).
Proof.
  exact (generated_copay_zero_iff_self_pay sample_source sample_source_ok).
Defined.

End GeneratorFields.

(** ** More on the publisher *)

Section PublisherRuns.
Import Producer.

Lemma announced_app (a b : list output) :
  announced (a ++ b) = (announced a ++ announced b)%list.
Proof. apply flat_map_app. Qed.

Lemma reported_app (a b : list output) :
  reported (a ++ b) = (reported a ++ reported b)%list.
Proof. apply flat_map_app. Qed.

(** How the loop extends the output, whatever the channel does. *)
Lemma publish_loop_shape (world : nat -> Iteration) (fuel : nat) :
  forall count out,
  exists mid,
    fst (publish_loop fuel world count out) = (out ++ mid)%list /\
    reported mid = [] /\
    match snd (publish_loop fuel world count out) with
    | inr n =>
        n = (count + fuel)%nat /\
        List.length (receipts mid) = fuel /\
        announced mid = seq count fuel
    | inl e =>
        exists j, (j < fuel)%nat /\
          List.length (receipts mid) = j /\
          announced mid = seq count (S j) /\
          send_and_get (retries producer_config)
            (channel (world (count + j)%nat)) 0 = inl e
    end.
Proof.
  induction fuel as [|f IH]; intros count out.
  - exists []. cbn. rewrite app_nil_r, Nat.add_0_r. auto.
  - cbn -[send_and_get retries].
    destruct (send_and_get (retries producer_config)
                (channel (world count)) 0) as [e|md] eqn:E.
    + exists [Sending count
                (generate_synthetic_appointment (entropy (world count)))].
      cbn -[send_and_get retries].
      split; [reflexivity|]. split; [reflexivity|].
      exists 0%nat. rewrite Nat.add_0_r.
      repeat split; [lia | exact E].
    + destruct (IH (S count)
                  (((out ++ [Sending count
                       (generate_synthetic_appointment (entropy (world count)))])
                    ++ [SentTo md; Flushed; Slept (sleep_time (world count))])%list))
        as [mid [O [R T]]].
      exists ([Sending count
                 (generate_synthetic_appointment (entropy (world count)));
               SentTo md; Flushed; Slept (sleep_time (world count))]
              ++ mid)%list.
      split; [rewrite O, <- !app_assoc; reflexivity|].
      split; [rewrite reported_app, R; reflexivity|].
      destruct (snd (publish_loop f world (S count) _)) as [e|n].
      * destruct T as [j [L [Rc [A Sg]]]].
        exists (S j). rewrite receipts_app, announced_app, length_app, Rc, A.
        replace (count + S j)%nat with (S count + j)%nat by lia.
        repeat split; [lia | exact Sg].
      * destruct T as [N [Rc A]].
        rewrite receipts_app, announced_app, length_app, Rc, A.
        repeat split. lia.
Qed.

(** X7. Every run of the producer, whatever the channel and however long
    the loop is followed, ends in one of two ways.  Either the loop is still
    running after [fuel] records, each announced and receipted, and no
    error has been reported; or an exception leaves [run_producer], and then
    the output ends with exactly one error report and the traceback, the
    records were announced as 0, 1, 2, ... in order, and every announced
    record but the last has a receipt. *)
Theorem run_producer_outcomes
    (fuel : nat) (connect : option string) (world : nat -> Iteration) :
  (exists n,
     snd (run_producer fuel connect world) = Running n /\
     n = fuel /\ connect = None /\
     reported (fst (run_producer fuel connect world)) = [] /\
     announced (fst (run_producer fuel connect world)) = seq 0 n /\
     List.length (receipts (fst (run_producer fuel connect world))) = n) \/
  (exists e before,
     snd (run_producer fuel connect world) = Raised e /\
     fst (run_producer fuel connect world)
     = (before ++ [ProducerError e; Traceback])%list /\
     reported before = [] /\
     announced before = seq 0 (List.length (announced before)) /\
     (connect = None ->
      List.length (announced before) = S (List.length (receipts before))) /\
     (connect <> None -> before = [Connecting])).
Proof.
  destruct connect as [e|].
  - right. exists e, [Connecting]. cbn.
    repeat split; intros H; [discriminate H].
  - unfold run_producer.
    destruct (publish_loop_shape world fuel 0%nat [Connecting; Connected])
      as [mid [O [R T]]].
    destruct (publish_loop fuel world 0 [Connecting; Connected])
      as [out [e|n]] eqn:P; cbn [fst snd] in *.
    + right. destruct T as [j [L [Rc [A Sg]]]].
      exists e, out. subst out.
      rewrite reported_app, announced_app, receipts_app, R, A.
      cbn [reported announced receipts flat_map app].
      rewrite length_seq, Rc.
      repeat split; try reflexivity. intros H; contradiction.
    + left. destruct T as [N [Rc A]]. exists n. subst out.
      rewrite reported_app, announced_app, receipts_app, R, A, length_app, Rc.
      cbn. subst n. repeat split.
Qed.

End PublisherRuns.

(** ** More on the KPI block *)

Section KpiBounds.
Import Num Dashboard.

Lemma with_status_length (s : string) (df : DataFrame) :
  (List.length (with_status s df) <= List.length (rows df))%nat.
Proof. apply filter_length_le. Qed.

Lemma disjoint_filters_length {A : Type} (p q : A -> bool) (l : list A) :
  (forall x, p x = true -> q x = false) ->
  (List.length (filter p l) + List.length (filter q l) <= List.length l)%nat.
Proof.
  intros D. induction l as [|x l IH]; cbn; [lia|].
  destruct (p x) eqn:P.
  - rewrite (D x P). cbn. lia.
  - destruct (q x); cbn; lia.
Qed.

Lemma of_nat_pos (n : nat) : (0 < n)%nat -> 0 < inject_Z (Z.of_nat n).
Proof.
  intros L. change 0 with (inject_Z 0). rewrite <- Zlt_Qlt. lia.
Qed.

Lemma of_nat_le (n m : nat) :
  (n <= m)%nat -> inject_Z (Z.of_nat n) <= inject_Z (Z.of_nat m).
Proof. intros L. rewrite <- Zle_Qle. lia. Qed.

(** X9. For every dataset the completion rate lies between 0 and 100 and
    is 0 exactly when no row is completed; completed and cancelled rows
    together are no more than all rows. *)
Theorem completion_rate_bounds (df : DataFrame) :
  0 <= completion_rate (kpi_block df) /\
  completion_rate (kpi_block df) <= 100 /\
  (completion_rate (kpi_block df) == 0 <-> completed (kpi_block df) = 0%nat) /\
  (completed (kpi_block df) + cancelled (kpi_block df)
   <= total_appts (kpi_block df))%nat.
Proof.
  unfold kpi_block. cbn [completion_rate completed cancelled total_appts].
  pose proof (with_status_length "Completed" df) as Lc.
  set (c := List.length (with_status "Completed" df)) in *.
  set (n := List.length (rows df)) in *.
  assert (D : (c + List.length (with_status "Cancelled" df) <= n)%nat).
  { apply disjoint_filters_length. intros r E.
    apply String.eqb_eq in E. rewrite E. reflexivity. }
  destruct (Nat.ltb_spec 0 n) as [P|Z0].
  - pose proof (of_nat_pos n P) as Pn.
    pose proof (of_nat_le c n Lc) as Lq.
    assert (C0 : 0 <= inject_Z (Z.of_nat c))
      by (change 0 with (inject_Z 0); rewrite <- Zle_Qle; lia).
    set (qc := inject_Z (Z.of_nat c)) in *.
    set (qn := inject_Z (Z.of_nat n)) in *.
    assert (E : qc / qn * 100 == (qc * 100) / qn) by (field; lra).
    rewrite E.
    repeat split.
    + apply Qle_shift_div_l; [exact Pn | lra].
    + apply Qle_shift_div_r; [exact Pn | lra].
    + intros Z0.
      assert (Hq : qc * 100 == 0).
      { rewrite <- (Qmult_div_r (qc * 100) qn) by lra. rewrite Z0. lra. }
      assert (qc == 0) by lra.
      unfold qc in H. change 0 with (inject_Z 0) in H.
      apply (proj1 (inject_Z_injective _ _)) in H.
      apply Nat2Z.inj. exact H.
    + intros Z0. unfold qc. rewrite Z0. reflexivity.
    + exact D.
  - assert (c = 0%nat) by lia.
    repeat split; try lra; try assumption; try reflexivity.
    intros _. assumption.
Qed.

End KpiBounds.

(** ** More on the status mix *)

Section StatusMix.
Import Num Dashboard.

Lemma insert_by_appointments_sorted (g : StatusGroup) (l : list StatusGroup) :
  Sorted count_ge l -> Sorted count_ge (insert_by_appointments g l).
Proof.
  induction 1 as [|x l S IH H]; cbn [insert_by_appointments].
  - repeat constructor.
  - destruct (Nat.leb_spec (appointments x) (appointments g)) as [L|L].
    + repeat constructor; assumption.
    + constructor; [exact IH|].
      destruct H as [|y l H]; cbn [insert_by_appointments].
      * constructor. unfold count_ge. lia.
      * destruct (appointments y <=? appointments g)%nat; constructor;
          unfold count_ge in *; lia.
Qed.

(** X12. The status mix is listed in descending order of the count: no
    group has more appointments than a group listed before it. *)
Theorem status_mix_descending (df : DataFrame) :
  StronglySorted count_ge (status_summary df).
Proof.
  apply Sorted_StronglySorted.
  - intros a b c. unfold count_ge. lia.
  - unfold status_summary.
    induction (groupby_status (rows df)) as [|g l IH]; cbn [fold_right].
    + constructor.
    + apply insert_by_appointments_sorted. exact IH.
Qed.

Lemma compare_gt_lt (a b : string) :
  String.compare a b = Gt -> String_as_OT.lt b a.
Proof.
  intros C. apply String_as_OT.cmp_lt. unfold String_as_OT.cmp.
  rewrite String.compare_antisym, C. reflexivity.
Qed.

Lemma add_to_groups_sorted (r : Row) (groups : list StatusGroup) :
  Sorted key_lt groups -> Sorted key_lt (add_to_groups r groups).
Proof.
  induction 1 as [|g rest S IH H]; cbn [add_to_groups].
  - repeat constructor.
  - destruct (String.compare (status r) (group_status g)) eqn:C.
    + constructor; [exact S|].
      destruct H; constructor. exact H.
    + constructor; [constructor; assumption|]. constructor.
      apply String_as_OT.cmp_lt. exact C.
    + constructor; [exact IH|].
      pose proof (compare_gt_lt _ _ C) as G.
      destruct H as [|y l H]; cbn [add_to_groups].
      * constructor. exact G.
      * destruct (String.compare (status r) (group_status y));
          constructor; try exact G; exact H.
Qed.

Lemma groupby_status_sorted (l : list Row) :
  StronglySorted key_lt (groupby_status l).
Proof.
  apply Sorted_StronglySorted.
  - intros a b c. unfold key_lt. apply String_as_OT.lt_trans.
  - unfold groupby_status.
    assert (G : forall gs, Sorted key_lt gs ->
                Sorted key_lt (fold_left (fun gs r => add_to_groups r gs) l gs)).
    { induction l as [|r l IH]; intros gs S; cbn [fold_left]; [exact S|].
      apply IH. apply add_to_groups_sorted. exact S. }
    apply G. constructor.
Qed.

Lemma strongly_sorted_keys_nodup (groups : list StatusGroup) :
  StronglySorted key_lt groups -> NoDup (map group_status groups).
Proof.
  induction 1 as [|g l S IH F]; cbn [map]; constructor; [|exact IH].
  intros I. apply in_map_iff in I. destruct I as [x [E I]].
  rewrite Forall_forall in F. specialize (F x I). unfold key_lt in F.
  rewrite E in F. exact (String_as_OT.lt_not_eq _ _ F eq_refl).
Qed.

Lemma add_to_groups_positive (r : Row) (groups : list StatusGroup) :
  Forall (fun g => (1 <= appointments g)%nat) groups ->
  Forall (fun g => (1 <= appointments g)%nat) (add_to_groups r groups).
Proof.
  induction 1 as [|g rest P F IH]; cbn [add_to_groups].
  - repeat constructor.
  - destruct (String.compare (status r) (group_status g));
      repeat constructor; cbn [appointments]; try assumption; lia.
Qed.

Lemma groupby_status_positive (l : list Row) :
  Forall (fun g => (1 <= appointments g)%nat) (groupby_status l).
Proof.
  unfold groupby_status.
  assert (G : forall gs, Forall (fun g => (1 <= appointments g)%nat) gs ->
              Forall (fun g => (1 <= appointments g)%nat)
                (fold_left (fun gs r => add_to_groups r gs) l gs)).
  { induction l as [|r l IH]; intros gs F; cbn [fold_left]; [exact F|].
    apply IH. apply add_to_groups_positive. exact F. }
  apply G. constructor.
Qed.

Lemma count_for_unique (groups : list StatusGroup) (g : StatusGroup) :
  NoDup (map group_status groups) -> In g groups ->
  count_for (group_status g) groups = appointments g.
Proof.
  induction groups as [|x l IH]; cbn [map]; intros N I; [contradiction|].
  inversion N as [|? ? Nx Nl]; subst.
  rewrite count_for_cons. destruct I as [->|I].
  - rewrite String.eqb_refl.
    assert (Z0 : count_for (group_status g) l = 0%nat).
    { clear IH N Nl. induction l as [|y l IHl]; [reflexivity|].
      rewrite count_for_cons.
      destruct (String.eqb_spec (group_status y) (group_status g)) as [E|_].
      - exfalso. apply Nx. left. exact E.
      - apply IHl. intros I. apply Nx. right. exact I. }
    rewrite Z0. lia.
  - destruct (String.eqb_spec (group_status x) (group_status g)) as [E|_].
    + exfalso. apply Nx. rewrite E. apply in_map. exact I.
    + rewrite (IH Nl I). reflexivity.
Qed.

Lemma count_for_positive (s : string) (groups : list StatusGroup) :
  (1 <= count_for s groups)%nat -> In s (map group_status groups).
Proof.
  induction groups as [|x l IH]; [cbn; lia|].
  rewrite count_for_cons. cbn [map].
  destruct (String.eqb_spec (group_status x) s) as [E|_].
  - intros _. left. exact E.
  - intros P. right. apply IH. lia.
Qed.

Lemma count_for_status_summary (df : DataFrame) (s : string) :
  count_for s (status_summary df) = List.length (with_status s df).
Proof.
  rewrite <- (count_for_perm s _ _ (status_summary_perm df)).
  unfold groupby_status, with_status.
  rewrite (proj2 (groupby_status_from (rows df) []) s).
  cbn. lia.
Qed.

(** X13. The status mix has one group for each status that occurs in the
    dataset and no other: the statuses of its groups are pairwise
    different, each group counts exactly the rows with its status, which
    are at least one, and every status of a row has its group. *)
Theorem status_mix_groups (df : DataFrame) :
  NoDup (map group_status (status_summary df)) /\
  (forall g, In g (status_summary df) ->
     appointments g = List.length (with_status (group_status g) df) /\
     (1 <= appointments g)%nat) /\
  (forall s, In s (map group_status (status_summary df)) <->
             In s (map status (rows df))).
Proof.
  pose proof (status_summary_perm df) as P.
  assert (N : NoDup (map group_status (status_summary df))).
  { apply (Permutation_NoDup (Permutation_map group_status P)).
    apply strongly_sorted_keys_nodup, groupby_status_sorted. }
  assert (Pos : forall g, In g (status_summary df) -> (1 <= appointments g)%nat).
  { intros g I. pose proof (groupby_status_positive (rows df)) as F.
    rewrite Forall_forall in F. apply F.
    apply (Permutation_in _ (Permutation_sym P)). exact I. }
  assert (Cnt : forall g, In g (status_summary df) ->
            appointments g = List.length (with_status (group_status g) df)).
  { intros g I. rewrite <- (count_for_unique _ g N I).
    apply count_for_status_summary. }
  split; [exact N|]. split; [intros g I; split; auto|].
  intros s. split.
  - intros I. apply in_map_iff in I. destruct I as [g [<- I]].
    pose proof (Pos g I) as P1. rewrite (Cnt g I) in P1.
    unfold with_status in P1.
    destruct (filter _ (rows df)) as [|r l] eqn:F; [cbn in P1; lia|].
    assert (Ir : In r (filter (fun r => String.eqb (status r) (group_status g))
                         (rows df))) by (rewrite F; left; reflexivity).
    apply filter_In in Ir. destruct Ir as [Ir E].
    apply String.eqb_eq in E. rewrite <- E. apply in_map. exact Ir.
  - intros I. apply in_map_iff in I. destruct I as [r [<- I]].
    apply count_for_positive.
    rewrite count_for_status_summary.
    unfold with_status.
    assert (Ir : In r (filter (fun x => String.eqb (status x) (status r))
                         (rows df)))
      by (apply filter_In; split; [exact I | apply String.eqb_refl]).
    destruct (filter _ (rows df)); [contradiction | cbn; lia].
Qed.

End StatusMix.

(** ** More on the trend *)

Section Trend.
Import Num Dashboard.

Lemma Zrange_in (m lo : Z) (n : nat) :
  In m (Zrange lo n) <-> (lo <= m < lo + Z.of_nat n)%Z.
Proof.
  revert lo. induction n as [|n IH]; intros lo; cbn [Zrange].
  - cbn. lia.
  - cbn [In]. rewrite IH. lia.
Qed.

Lemma Zrange_last (lo d : Z) (n : nat) :
  last (Zrange lo (S n)) d = (lo + Z.of_nat n)%Z.
Proof.
  revert lo. induction n as [|n IH]; intros lo.
  - cbn. lia.
  - change (Zrange lo (S (S n))) with (lo :: Zrange (lo + 1) (S n)).
    change (last (lo :: Zrange (lo + 1) (S n)) d)
      with (last (Zrange (lo + 1) (S n)) d).
    rewrite IH. lia.
Qed.

Lemma fold_min_in (ts : list Z) (t : Z) : In (fold_left Z.min ts t) (t :: ts).
Proof.
  revert t. induction ts as [|y ts IH]; intros t; cbn [fold_left].
  - left. reflexivity.
  - destruct (IH (Z.min t y)) as [E|I]; [|right; right; exact I].
    rewrite <- E. destruct (Z.min_spec t y) as [[_ ->]|[_ ->]];
      [left | right; left]; reflexivity.
Qed.

Lemma fold_max_in (ts : list Z) (t : Z) : In (fold_left Z.max ts t) (t :: ts).
Proof.
  revert t. induction ts as [|y ts IH]; intros t; cbn [fold_left].
  - left. reflexivity.
  - destruct (IH (Z.max t y)) as [E|I]; [|right; right; exact I].
    rewrite <- E. destruct (Z.max_spec t y) as [[_ ->]|[_ ->]];
      [right; left | left]; reflexivity.
Qed.

Lemma bin_of_interval (t : Z) :
  (bin_of t * minute <= t < bin_of t * minute + minute)%Z.
Proof.
  unfold bin_of, minute.
  pose proof (Z.div_mod t 60000000 ltac:(lia)).
  pose proof (Z.mod_pos_bound t 60000000 ltac:(lia)).
  lia.
Qed.

(** The bucket that [resample] builds for the minute [m]. *)
Lemma resample_shape (l : list Row) (t : Z) (ts : list Z) :
  stamps l = t :: ts ->
  resample_1min l
  = map (fun m =>
           {| bucket_start := (m * minute)%Z;
              bucket_appointments := List.length (filter (in_bin m) l);
              bucket_revenue := sum (map cost (filter (in_bin m) l)) |})
        (Zrange (bin_of (fold_left Z.min ts t))
           (Z.to_nat (bin_of (fold_left Z.max ts t)
                      - bin_of (fold_left Z.min ts t) + 1))).
Proof. intros S. unfold resample_1min. rewrite S. reflexivity. Qed.

Lemma span_positive (t : Z) (ts : list Z) :
  (bin_of (fold_left Z.min ts t) <= bin_of (fold_left Z.max ts t))%Z.
Proof.
  apply bin_of_mono.
  transitivity t.
  - apply fold_min_le. left. reflexivity.
  - apply fold_max_ge. left. reflexivity.
Qed.

Lemma minute_steps_range (f : Z -> nat) (g : Z -> Q) (lo : Z) (n : nat) :
  minute_steps
    (map (fun m => {| bucket_start := (m * minute)%Z;
                      bucket_appointments := f m;
                      bucket_revenue := g m |}) (Zrange lo n)).
Proof.
  revert lo. induction n as [|n IH]; intros lo; cbn [Zrange map minute_steps].
  - exact I.
  - split; [|apply IH].
    destruct n; cbn [Zrange map bucket_start]; [exact I | lia].
Qed.

(** X14. The trend has one bucket per minute without gaps: each bucket
    starts on a whole minute, exactly one minute after the bucket before
    it. *)
Theorem trend_minute_steps (df : DataFrame) :
  minute_steps (volume_cost_trend df) /\
  forall b, In b (volume_cost_trend df) -> (bucket_start b mod minute = 0)%Z.
Proof.
  unfold volume_cost_trend.
  destruct (has_column "timestamp" df); [|split; [exact I | contradiction]].
  destruct (stamps (sort_by_timestamp (rows df))) as [|t ts] eqn:S.
  - unfold resample_1min. rewrite S. split; [exact I | contradiction].
  - rewrite (resample_shape _ t ts S). split.
    + apply minute_steps_range.
    + intros b Ib. apply in_map_iff in Ib. destruct Ib as [m [<- _]].
      cbn [bucket_start]. apply Z.mod_mul. unfold minute. lia.
Qed.

Lemma last_of_map {A B : Type} (f : A -> B) (l : list A) (d : B) (d' : A) :
  l <> [] -> last (map f l) d = f (last l d').
Proof.
  induction l as [|x l IH]; intros N; [contradiction|].
  destruct l as [|y l]; [reflexivity|].
  change (last (map f (x :: y :: l)) d) with (last (map f (y :: l)) d).
  change (last (x :: y :: l) d') with (last (y :: l) d').
  apply IH. discriminate.
Qed.

Lemma filter_nonempty {A : Type} (p : A -> bool) (l : list A) (x : A) :
  In x l -> p x = true -> (1 <= List.length (filter p l))%nat.
Proof.
  intros I P.
  assert (F : In x (filter p l)) by (apply filter_In; split; assumption).
  destruct (filter p l); [contradiction | cbn; lia].
Qed.

(** X15. In a dataset with the timestamp column every row lies in a bucket
    of the trend, the one whose minute holds its timestamp, and when there
    are rows the first and the last bucket each hold at least one row. *)
Theorem trend_covers_rows (df : DataFrame) :
  has_column "timestamp" df = true ->
  (forall r, In r (rows df) ->
     exists b, In b (volume_cost_trend df) /\
       (bucket_start b <= timestamp r < bucket_start b + minute)%Z /\
       (1 <= bucket_appointments b)%nat) /\
  (rows df <> [] ->
   forall d,
     (1 <= bucket_appointments (hd d (volume_cost_trend df)))%nat /\
     (1 <= bucket_appointments (last (volume_cost_trend df) d))%nat).
Proof.
  intros C. unfold volume_cost_trend. rewrite C.
  pose proof (sort_by_timestamp_perm (rows df)) as P.
  set (l := sort_by_timestamp (rows df)) in *.
  destruct (stamps l) as [|t ts] eqn:St.
  - assert (E : l = []) by (destruct l; [reflexivity | discriminate St]).
    rewrite E in P. apply Permutation_sym, Permutation_nil in P.
    rewrite P. split; [intros r []|intros N; contradiction].
  - rewrite (resample_shape l t ts St).
    pose proof (span_positive t ts) as Sp.
    set (lo := bin_of (fold_left Z.min ts t)) in *.
    set (hi := bin_of (fold_left Z.max ts t)) in *.
    assert (Bins : forall r, In r l -> (lo <= bin_of (timestamp r) <= hi)%Z).
    { intros r I.
      assert (Ix : In (timestamp r) (t :: ts))
        by (rewrite <- St; apply in_map; exact I).
      split; apply bin_of_mono; [apply fold_min_le | apply fold_max_ge];
        exact Ix. }
    split.
    + intros r I. apply (Permutation_in _ P) in I.
      eexists. split.
      * apply in_map_iff. exists (bin_of (timestamp r)).
        split; [reflexivity|]. apply Zrange_in.
        pose proof (Bins r I). lia.
      * cbn [bucket_start bucket_appointments]. split.
        -- apply bin_of_interval.
        -- apply (filter_nonempty _ l r I). unfold in_bin. apply Z.eqb_refl.
    + intros _ d.
      replace (Z.to_nat (hi - lo + 1)) with (S (Z.to_nat (hi - lo))) by lia.
      split.
      * cbn [Zrange map hd bucket_appointments].
        pose proof (fold_min_in ts t) as Im. rewrite <- St in Im.
        apply in_map_iff in Im. destruct Im as [r [E I]].
        apply (filter_nonempty _ l r I). unfold in_bin.
        rewrite E. apply Z.eqb_refl.
      * rewrite (last_of_map _ _ d 0%Z) by (cbn; discriminate).
        rewrite (Zrange_last lo 0%Z). cbn [bucket_appointments].
        pose proof (fold_max_in ts t) as Im. rewrite <- St in Im.
        apply in_map_iff in Im. destruct Im as [r [E I]].
        apply (filter_nonempty _ l r I). unfold in_bin.
        rewrite E. fold hi. apply Z.eqb_eq. lia.
Qed.

Lemma trend_covers_rows_witness :
  (forall r, In r (rows scenario_frame) ->
     exists b, In b (volume_cost_trend scenario_frame) /\
       (bucket_start b <= timestamp r < bucket_start b + minute)%Z /\
       (1 <= bucket_appointments b)%nat) /\
  (rows scenario_frame <> [] ->
   forall d,
     (1 <= bucket_appointments (hd d (volume_cost_trend scenario_frame)))%nat /\
     (1 <= bucket_appointments (last (volume_cost_trend scenario_frame) d))%nat).
Proof. apply (trend_covers_rows scenario_frame). reflexivity. Defined.

End Trend.

(** ** More on the query adapter *)

Section QueryBuilding.
Import Dashboard.

Lemma load_data_build_query (engine : Store) (status_filter : option string)
    (limit : Z) :
  load_data engine status_filter limit
  = try_except
      (read_sql_query (fst (build_query status_filter limit)) engine
         (snd (build_query status_filter limit)))
      (fun e => ([StError ("Error loading data from database: " ++ e)],
                 inr empty_frame)).
Proof.
  unfold load_data, build_query.
  destruct (filter_applies status_filter); reflexivity.
Qed.

(** X17. [load_data] sends one of two fixed statements and never writes
    the filter into the statement text: the limit always travels as the
    bound parameter [limit], the status as the bound parameter [status]
    when the filter applies and not at all otherwise, and two filters that
    both apply give the same text. *)
Theorem query_is_parameterized (status_filter : option string) (limit : Z) :
  (forall engine,
     load_data engine status_filter limit
     = try_except
         (read_sql_query (fst (build_query status_filter limit)) engine
            (snd (build_query status_filter limit)))
         (fun e => ([StError ("Error loading data from database: " ++ e)],
                    inr empty_frame))) /\
  fst (build_query status_filter limit)
  = (if filter_applies status_filter then sql_by_status else sql_all) /\
  lookup "limit" (snd (build_query status_filter limit)) = Some (PInt limit) /\
  lookup "status" (snd (build_query status_filter limit))
  = (if filter_applies status_filter
     then option_map PStr status_filter else None) /\
  (forall other limit',
     filter_applies other = filter_applies status_filter ->
     fst (build_query other limit') = fst (build_query status_filter limit)).
Proof.
  split; [intros engine; apply load_data_build_query|].
  assert (T : forall f l, fst (build_query f l)
              = (if filter_applies f then sql_by_status else sql_all))
    by (intros f l; unfold build_query; destruct (filter_applies f); reflexivity).
  split; [apply T|]. split; [|split].
  - unfold build_query. destruct (filter_applies status_filter); reflexivity.
  - unfold build_query.
    destruct status_filter as [s|]; [|reflexivity].
    destruct (filter_applies (Some s)); reflexivity.
  - intros other limit' E. rewrite !T, E. reflexivity.
Qed.

(** X18. The filters [None], "All" and the empty string are the same
    request: with each of them [load_data] returns, and shows, the same. *)
Theorem unfiltered_requests_agree (engine : Store) (limit : Z) :
  load_data engine (Some "All") limit = load_data engine None limit /\
  load_data engine (Some "") limit = load_data engine None limit.
Proof. split; rewrite !load_data_query; reflexivity. Qed.

Lemma filter_keeps_distinct_ids (keep : Row -> bool) (table : list Row) :
  NoDup (map appointment_id table) ->
  NoDup (map appointment_id (filter keep table)).
Proof.
  induction table as [|r table IH]; cbn [map filter]; intros N; [constructor|].
  apply NoDup_cons_iff in N. destruct N as [Fresh N].
  destruct (keep r); cbn [map]; [|exact (IH N)].
  apply NoDup_cons_iff. split; [|exact (IH N)].
  intros I. apply Fresh. apply in_map_iff in I. destruct I as [y [E I]].
  apply filter_In in I. rewrite <- E. apply in_map. apply I.
Qed.

Lemma selected_distinct (status_filter : option string) (table : list Row) :
  NoDup (map appointment_id table) ->
  NoDup (map appointment_id (selected status_filter table)).
Proof.
  intros N. unfold selected. destruct status_filter as [s|]; [|exact N].
  destruct (filter_applies (Some s)); [apply filter_keeps_distinct_ids|]; exact N.
Qed.

Lemma same_id_same_row (l : list Row) (a b : Row) :
  NoDup (map appointment_id l) -> In a l -> In b l ->
  appointment_id a = appointment_id b -> a = b.
Proof.
  induction l as [|x l IH]; cbn [map]; intros N Ia Ib E; [contradiction|].
  inversion N as [|? ? Nx Nl]; subst.
  destruct Ia as [->|Ia], Ib as [->|Ib].
  - reflexivity.
  - exfalso. apply Nx. rewrite E. apply in_map. exact Ib.
  - exfalso. apply Nx. rewrite <- E. apply in_map. exact Ia.
  - apply IH; assumption.
Qed.

(** Rows with pairwise different identifiers have one descending order. *)
Lemma descending_order_unique (l1 l2 : list Row) :
  NoDup (map appointment_id l1) -> Permutation l1 l2 ->
  StronglySorted id_ge l1 -> StronglySorted id_ge l2 -> l1 = l2.
Proof.
  revert l2. induction l1 as [|a l1 IH]; intros l2 N P S1 S2.
  - apply Permutation_nil in P. symmetry. exact P.
  - destruct l2 as [|b l2];
      [apply Permutation_sym, Permutation_nil in P; discriminate P|].
    assert (E : a = b).
    { assert (Ib : In b (a :: l1))
        by (apply (Permutation_in _ (Permutation_sym P)); left; reflexivity).
      assert (Ia : In a (b :: l2))
        by (apply (Permutation_in _ P); left; reflexivity).
      destruct Ib as [Ib|Ib]; [exact Ib|].
      destruct Ia as [Ia|Ia]; [symmetry; exact Ia|].
      inversion S1 as [|? ? _ F1]; subst. inversion S2 as [|? ? _ F2]; subst.
      rewrite Forall_forall in F1, F2.
      pose proof (F1 b Ib) as G1. pose proof (F2 a Ia) as G2.
      unfold id_ge in G1, G2.
      apply (same_id_same_row (a :: l1) a b N);
        [left; reflexivity | right; exact Ib |].
      apply String.leb_antisym; assumption. }
    subst b. f_equal.
    apply IH.
    + inversion N; assumption.
    + apply (Permutation_cons_inv P).
    + inversion S1; assumption.
    + inversion S2; assumption.
Qed.

(** X29. When no two rows of the table share an [appointment_id] the
    answer is determined: whatever descending order of the rows that the
    filter keeps the database produces, cut at the limit it is what
    [load_data] returns. *)
Theorem descending_answer_determined
    (cols : list string) (table : list Row) (status_filter : option string)
    (limit : Z) (answer : list Row) :
  NoDup (map appointment_id table) ->
  (0 <= limit)%Z ->
  Permutation answer (selected status_filter table) ->
  StronglySorted id_ge answer ->
  load_data (Reachable cols table) status_filter limit
  = ([], inr {| columns := cols; rows := firstn (Z.to_nat limit) answer |}).
Proof.
  intros N L P S. rewrite load_data_reachable by exact L.
  rewrite (descending_order_unique answer
             (order_by_appointment_id_desc (selected status_filter table)));
    [reflexivity | | | exact S | apply order_by_sorted].
  - apply (Permutation_NoDup
             (Permutation_map appointment_id (Permutation_sym P))).
    apply selected_distinct. exact N.
  - rewrite P. apply order_by_perm.
Qed.

Lemma descending_answer_determined_witness :
  load_data (Reachable event_columns (rows scenario_frame)) None 2
  = ([], inr {| columns := event_columns;
                rows := firstn (Z.to_nat 2)
                          [scenario_row3; scenario_row1; scenario_row2] |}).
Proof.
  apply descending_answer_determined.
  - cbn. repeat constructor; cbn; intuition discriminate.
  - lia.
  - cbn [selected scenario_frame rows].
    apply (Permutation_app_comm [scenario_row3] [scenario_row1; scenario_row2]).
  - repeat constructor.
Defined.

(** X19. In a store whose rows have pairwise different identifiers, a
    smaller limit returns a prefix of what a larger limit returns: for
    [0 <= n <= m] the rows under the limit [n] are the first [n] rows
    under the limit [m], from the same columns and with the same messages. *)
Theorem smaller_limit_is_prefix
    (engine : Store) (status_filter : option string) (n m : Z) :
  distinct_ids engine ->
  (0 <= n <= m)%Z ->
  exists shown df_n df_m,
    load_data engine status_filter n = (shown, inr df_n) /\
    load_data engine status_filter m = (shown, inr df_m) /\
    columns df_n = columns df_m /\
    rows df_n = firstn (Z.to_nat n) (rows df_m).
Proof.
  intros _ R. rewrite !load_data_query.
  destruct engine as [cols table|err].
  - destruct (Z.ltb_spec n 0); [lia|]. destruct (Z.ltb_spec m 0); [lia|].
    eexists _, _, _. cbn [try_except]. repeat split.
    cbn [rows]. rewrite firstn_firstn.
    replace (Nat.min (Z.to_nat n) (Z.to_nat m)) with (Z.to_nat n) by lia.
    reflexivity.
  - eexists _, _, _. cbn [try_except]. repeat split.
    cbn [rows empty_frame]. rewrite firstn_nil. reflexivity.
Qed.

Lemma smaller_limit_is_prefix_witness :
  exists shown df_n df_m,
    load_data (Reachable event_columns (rows scenario_frame)) None 2
    = (shown, inr df_n) /\
    load_data (Reachable event_columns (rows scenario_frame)) None 50
    = (shown, inr df_m) /\
    columns df_n = columns df_m /\
    rows df_n = firstn (Z.to_nat 2) (rows df_m).
Proof.
  apply smaller_limit_is_prefix; [|lia].
  cbn. repeat constructor; cbn; intuition discriminate.
Defined.

(** X20. The refresh loop reaches the KPI block only with a dataset that
    has rows.  When [load_data] returns a dataset that is not empty, the
    branch the loop then takes, the limit is positive, the store has
    answered, nothing but the dataset came back (no message), between 1
    and [limit] rows are counted, and the average and the completion rate
    are the quotients themselves: the zero guards are not taken.  A pass
    waits exactly when the dataset is empty, and then the page shows the
    warning, after the error message if there was one, and no metric. *)
Theorem refresh_cycle_branches
    (engine : Store) (selected_status : string)
    (limit_records update_interval : Z) :
  (forall shown df,
     load_data engine (Some selected_status) limit_records = (shown, inr df) ->
     empty df = false ->
     (0 < limit_records)%Z /\
     shown = [] /\
     (exists table, engine = Reachable (columns df) table) /\
     (1 <= total_appts (kpi_block df) <= Z.to_nat limit_records)%nat /\
     average_cost (kpi_block df)
     = total_cost (kpi_block df)
       / inject_Z (Z.of_nat (total_appts (kpi_block df))) /\
     completion_rate (kpi_block df)
     = inject_Z (Z.of_nat (completed (kpi_block df)))
       / inject_Z (Z.of_nat (total_appts (kpi_block df))) * 100) /\
  (snd (refresh_cycle engine selected_status limit_records update_interval)
   = inr Waiting <->
   exists shown df,
     load_data engine (Some selected_status) limit_records = (shown, inr df) /\
     empty df = true) /\
  (snd (refresh_cycle engine selected_status limit_records update_interval)
   = inr Waiting ->
   exists diagnostic,
     fst (refresh_cycle engine selected_status limit_records update_interval)
     = (diagnostic ++ [StWarning "No records found. Waiting for data...";
                       Sleep update_interval])%list /\
     (diagnostic = [] \/
      exists e,
        diagnostic = [StError ("Error loading data from database: " ++ e)])).
Proof.
  split; [|split].
  - intros shown df L E. rewrite load_data_query in L.
    destruct engine as [cols table|err].
    + destruct (Z.ltb_spec limit_records 0) as [Neg|Pos]; cbn [try_except] in L.
      * injection L as _ <-. discriminate E.
      * set (out := firstn (Z.to_nat limit_records)
                      (order_by_appointment_id_desc
                         (selected (Some selected_status) table))) in L.
        assert (Len : (List.length out <= Z.to_nat limit_records)%nat)
          by apply firstn_le_length.
        clearbody out. injection L as <- <-.
        unfold empty in E. apply orb_false_iff in E. destruct E as [E _].
        apply Nat.eqb_neq in E. cbn [rows] in E.
        split; [lia|]. split; [reflexivity|].
        split; [exists table; reflexivity|].
        unfold kpi_block.
        cbn [total_appts average_cost total_cost completion_rate completed rows].
        split; [lia|].
        destruct (Nat.ltb_spec 0 (List.length out));
          [split; reflexivity | lia].
    + cbn [try_except] in L. injection L as _ <-. discriminate E.
  - unfold refresh_cycle.
    destruct (load_data engine (Some selected_status) limit_records)
      as [shown [e|df]] eqn:L; cbn [snd].
    + split; [discriminate|]. intros [sh [d [D _]]]. discriminate D.
    + destruct (empty df) eqn:E; cbn [snd].
      * split; [|reflexivity]. intros _. exists shown, df. split; reflexivity || exact E.
      * split.
        -- destruct (payment_summary df); cbn [snd]; discriminate.
        -- intros [sh [d [D Ed]]]. injection D as _ <-. congruence.
  - unfold refresh_cycle. rewrite load_data_query.
    destruct engine as [cols table|err].
    + destruct (Z.ltb_spec limit_records 0) as [Neg|Pos]; cbn [try_except].
      * intros _. eexists. split; [reflexivity|]. right. eexists. reflexivity.
      * destruct (empty _); cbn [fst snd].
        -- intros _. exists []. split; [reflexivity | left; reflexivity].
        -- destruct (payment_summary _); cbn [snd]; discriminate.
    + cbn [try_except fst snd empty_frame empty rows columns List.length
           Nat.eqb orb].
      intros _. eexists. split; [reflexivity|]. right. eexists. reflexivity.
Qed.

Lemma refresh_cycle_branches_witness :
  (0 < 50)%Z /\
  (1 <= total_appts (kpi_block {| columns := event_columns;
                                  rows := [scenario_row3; scenario_row1;
                                           scenario_row2] |})
   <= Z.to_nat 50)%nat.
Proof.
  destruct (proj1 (refresh_cycle_branches
                     (Reachable event_columns (rows scenario_frame)) "All" 50 5)
              [] {| columns := event_columns;
                    rows := [scenario_row3; scenario_row1; scenario_row2] |}
              eq_refl eq_refl) as [P [_ [_ [R _]]]].
  split; [exact P | exact R].
Defined.

End QueryBuilding.

(** ** Urgency by department and the payment summary *)

Section OtherRollups.
Import Num Dashboard.

Lemma sized_cons (g : UrgencyGroup) (groups : list UrgencyGroup) :
  sized (g :: groups) = (group_size g + sized groups)%nat.
Proof. reflexivity. Qed.

Lemma sized_add (r : Row) (groups : list UrgencyGroup) :
  sized (add_to_urgency_groups r groups) = S (sized groups).
Proof.
  induction groups as [|g rest IH]; cbn [add_to_urgency_groups]; [reflexivity|].
  destruct (compare_department_urgency r g);
    rewrite !sized_cons; cbn [group_size]; lia.
Qed.

Lemma sized_groupby (l : list Row) (groups : list UrgencyGroup) :
  sized (fold_left (fun gs r => add_to_urgency_groups r gs) l groups)
  = (List.length l + sized groups)%nat.
Proof.
  revert groups. induction l as [|r l IH]; intros groups; cbn [fold_left].
  - reflexivity.
  - rewrite IH, sized_add. cbn [List.length]. lia.
Qed.

Lemma sized_insert (g : UrgencyGroup) (l : list UrgencyGroup) :
  sized (insert_by_size g l) = (group_size g + sized l)%nat.
Proof.
  induction l as [|x l IH]; cbn [insert_by_size]; [reflexivity|].
  destruct (group_size x <=? group_size g)%nat; rewrite !sized_cons; lia.
Qed.

Lemma insert_by_size_sorted (g : UrgencyGroup) (l : list UrgencyGroup) :
  Sorted size_ge l -> Sorted size_ge (insert_by_size g l).
Proof.
  induction 1 as [|x l S IH H]; cbn [insert_by_size].
  - repeat constructor.
  - destruct (Nat.leb_spec (group_size x) (group_size g)) as [L|L].
    + repeat constructor; assumption.
    + constructor; [exact IH|].
      destruct H as [|y l H]; cbn [insert_by_size].
      * constructor. unfold size_ge. lia.
      * destruct (group_size y <=? group_size g)%nat; constructor;
          unfold size_ge in *; lia.
Qed.

(** X21. The sizes of the urgency-by-department table add up to the
    number of rows of the dataset, and the table is in descending order
    of the size. *)
Theorem urgency_by_dept_counts (df : DataFrame) :
  sized (urgency_by_dept df) = List.length (rows df) /\
  StronglySorted size_ge (urgency_by_dept df).
Proof.
  unfold urgency_by_dept. split.
  - assert (S : forall gs, sized (fold_right insert_by_size [] gs) = sized gs).
    { induction gs as [|g gs IH]; cbn [fold_right]; [reflexivity|].
      rewrite sized_insert, sized_cons, IH. reflexivity. }
    rewrite S. unfold groupby_department_urgency.
    rewrite sized_groupby. cbn. lia.
  - apply Sorted_StronglySorted.
    + intros a b c. unfold size_ge. lia.
    + induction (groupby_department_urgency (rows df)) as [|g l IH];
        cbn [fold_right]; [constructor|].
      apply insert_by_size_sorted. exact IH.
Qed.

Lemma payment_totals_add (r : Row) (groups : list PaymentTotals) :
  list_sum (map rows_seen (add_to_payment_totals r groups))
  = S (list_sum (map rows_seen groups)) /\
  (Forall (fun g => (1 <= rows_seen g)%nat) groups ->
   Forall (fun g => (1 <= rows_seen g)%nat) (add_to_payment_totals r groups)).
Proof.
  induction groups as [|g rest [IHn IHp]]; cbn [add_to_payment_totals].
  - cbn [map]. rewrite !list_sum_cons. cbn [rows_seen].
    split; [lia|]. intros _. repeat constructor.
  - destruct (String.compare (payment_method r) (totals_method g));
      cbn [map]; rewrite ?list_sum_cons; cbn [rows_seen].
    + split; [lia|].
      intros F. inversion F; subst. constructor; [cbn; lia | assumption].
    + split; [lia|].
      intros F. constructor; [cbn; lia | assumption].
    + split; [rewrite IHn; lia|].
      intros F. inversion F; subst. constructor; [assumption | auto].
Qed.

Lemma payment_totals_groupby (l : list Row) (groups : list PaymentTotals) :
  list_sum (map rows_seen
              (fold_left (fun gs r => add_to_payment_totals r gs) l groups))
  = (List.length l + list_sum (map rows_seen groups))%nat /\
  (Forall (fun g => (1 <= rows_seen g)%nat) groups ->
   Forall (fun g => (1 <= rows_seen g)%nat)
     (fold_left (fun gs r => add_to_payment_totals r gs) l groups)).
Proof.
  revert groups. induction l as [|r l IH]; intros groups; cbn [fold_left].
  - split; [reflexivity | auto].
  - destruct (IH (add_to_payment_totals r groups)) as [N P].
    destruct (payment_totals_add r groups) as [N1 P1].
    rewrite N, N1. cbn [List.length].
    split; [lia | auto].
Qed.

Lemma insert_by_avg_cost_perm (g : PaymentGroup) (l : list PaymentGroup) :
  Permutation (g :: l) (insert_by_avg_cost g l).
Proof.
  induction l as [|x l IH]; cbn [insert_by_avg_cost]; [reflexivity|].
  destruct (Qle_bool _ _); [reflexivity|].
  rewrite perm_swap. apply perm_skip. exact IH.
Qed.

Lemma sort_by_avg_cost_perm (l : list PaymentGroup) :
  Permutation l (fold_right insert_by_avg_cost [] l).
Proof.
  induction l as [|g l IH]; cbn [fold_right]; [constructor|].
  rewrite <- insert_by_avg_cost_perm. apply perm_skip. exact IH.
Qed.

Lemma insert_by_avg_cost_sorted (g : PaymentGroup) (l : list PaymentGroup) :
  Sorted avg_cost_ge l -> Sorted avg_cost_ge (insert_by_avg_cost g l).
Proof.
  assert (T : forall x, Qle_bool (avg_cost x) (avg_cost g) = false ->
              avg_cost_ge x g).
  { intros x F. unfold avg_cost_ge.
    destruct (Qlt_le_dec (avg_cost g) (avg_cost x)) as [L|L];
      [apply Qlt_le_weak; exact L|].
    apply Qle_bool_iff in L. congruence. }
  induction 1 as [|x l S IH H]; cbn [insert_by_avg_cost].
  - repeat constructor.
  - destruct (Qle_bool (avg_cost x) (avg_cost g)) eqn:C.
    + constructor; [constructor; assumption|]. constructor.
      apply Qle_bool_iff. exact C.
    + constructor; [exact IH|].
      destruct H as [|y l H]; cbn [insert_by_avg_cost].
      * constructor. apply T, C.
      * destruct (Qle_bool (avg_cost y) (avg_cost g)); constructor;
          [apply T, C | exact H].
Qed.

Lemma list_sum_perm (l l' : list nat) :
  Permutation l l' -> list_sum l = list_sum l'.
Proof. induction 1; rewrite ?list_sum_cons; lia. Qed.

(** X22. For a dataset with the copay column the payment summary is
    computed; its volumes add up to the number of rows, every group has at
    least one row, and the groups are in descending order of the average
    cost. *)
Theorem payment_summary_volumes (df : DataFrame) :
  has_column "copay" df = true ->
  exists groups,
    payment_summary df = inr groups /\
    volumes groups = List.length (rows df) /\
    Forall (fun g => (1 <= volume g)%nat) groups /\
    StronglySorted avg_cost_ge groups.
Proof.
  intros C. unfold payment_summary. rewrite C.
  eexists. split; [reflexivity|].
  set (totals := groupby_payment_method (rows df)).
  pose proof (sort_by_avg_cost_perm (map aggregate_payment totals)) as P.
  destruct (payment_totals_groupby (rows df) []) as [N Pos].
  fold (groupby_payment_method (rows df)) in N, Pos. fold totals in N, Pos.
  specialize (Pos (Forall_nil _)).
  split; [|split].
  - unfold volumes.
    rewrite <- (list_sum_perm _ _ (Permutation_map volume P)).
    rewrite map_map. cbn [aggregate_payment volume].
    cbn [map list_sum fold_right] in N. rewrite Nat.add_0_r in N. exact N.
  - apply (Permutation_Forall P). apply Forall_map.
    cbn [aggregate_payment volume]. exact Pos.
  - apply Sorted_StronglySorted.
    + intros a b c. unfold avg_cost_ge. intros H1 H2.
      exact (Qle_trans _ _ _ H2 H1).
    + clear P. induction (map aggregate_payment totals) as [|g l IH];
        cbn [fold_right]; [constructor|].
      apply insert_by_avg_cost_sorted. exact IH.
Qed.

Lemma payment_summary_volumes_witness :
  exists groups,
    payment_summary scenario_frame = inr groups /\
    volumes groups = List.length (rows scenario_frame) /\
    Forall (fun g => (1 <= volume g)%nat) groups /\
    StronglySorted avg_cost_ge groups.
Proof. apply (payment_summary_volumes scenario_frame). reflexivity. Defined.

End OtherRollups.

(** ** The parts together *)

Section Composition.
Import Producer Dashboard.

Lemma send_and_get_agrees (budget : nat) (ch ch' : nat -> attempt) (i : nat) :
  (forall j, (i <= j <= i + budget)%nat -> ch j = ch' j) ->
  send_and_get budget ch i = send_and_get budget ch' i.
Proof.
  revert i. induction budget as [|b IH]; intros i H; cbn [send_and_get];
    rewrite <- (H i ltac:(lia)); [reflexivity|].
  destruct (ch i) as [md|[|] e]; try reflexivity.
  apply IH. intros j Hj. apply H. lia.
Qed.

(** X24. A send consults at most six transmissions: two channels that
    answer the first six transmissions alike give the same result,
    whatever they would answer later. *)
Theorem send_and_get_six_transmissions (ch ch' : nat -> attempt) :
  (forall j, (j < 6)%nat -> ch j = ch' j) ->
  send_and_get (retries producer_config) ch 0
  = send_and_get (retries producer_config) ch' 0.
Proof.
  intros H. apply send_and_get_agrees. intros j Hj. apply H.
  cbn in Hj. lia.
Qed.

Lemma send_and_get_six_transmissions_witness :
  send_and_get (retries producer_config)
    (fun i => if (i <? 6)%nat then Failed true "KafkaTimeoutError"
              else Acked {| partition := 0; offset := 0 |}) 0
  = send_and_get (retries producer_config)
      (fun _ => Failed true "KafkaTimeoutError") 0.
Proof.
  apply send_and_get_six_transmissions.
  intros j L. destruct (Nat.ltb_spec j 6); [reflexivity | lia].
Defined.

(** X26. Every status the generator can give an event is offered by the
    dashboard's selector, and every option of the selector other than
    "All" restricts the query to that status. *)
Theorem generated_statuses_are_selectable (rs : RandomSource) :
  (exists st,
     get "status" (generate_synthetic_appointment rs) = Some (JStr st) /\
     In st status_options /\ filter_applies (Some st) = true) /\
  (forall option, In option status_options ->
     filter_applies (Some option) = negb (String.eqb option "All")).
Proof.
  split.
  - exists (choice statuses (pick_status rs)).
    split; [reflexivity|].
    assert (I : In (choice statuses (pick_status rs)) statuses)
      by (apply choice_in; discriminate).
    split; [right; exact I|].
    destruct I as [<-|[<-|[<-|[<-|[]]]]]; reflexivity.
  - intros o [<-|[<-|[<-|[<-|[<-|[]]]]]]; reflexivity.
Qed.

(** X27. In a store whose rows have pairwise different identifiers, the
    raw preview of a dataset loaded with a limit of ten or more is what
    [load_data] returns for the limit ten, so the (at most ten) rows with
    the greatest [appointment_id]. *)
Theorem raw_preview_is_top_ten
    (engine : Store) (status_filter : option string) (limit : Z) :
  distinct_ids engine ->
  (10 <= limit)%Z ->
  exists shown df df10,
    load_data engine status_filter limit = (shown, inr df) /\
    load_data engine status_filter 10 = (shown, inr df10) /\
    raw_preview df = rows df10 /\
    (List.length (raw_preview df) <= 10)%nat.
Proof.
  intros _ L. rewrite !load_data_query.
  destruct engine as [cols table|err].
  - destruct (Z.ltb_spec limit 0); [lia|].
    eexists _, _, _. cbn [try_except Z.ltb Z.compare]. repeat split.
    + unfold raw_preview. cbn [rows]. rewrite firstn_firstn.
      replace (Nat.min 10 (Z.to_nat limit)) with (Z.to_nat 10) by lia.
      reflexivity.
    + unfold raw_preview. apply firstn_le_length.
  - eexists _, _, _. cbn [try_except]. repeat split. cbn. lia.
Qed.

Lemma raw_preview_is_top_ten_witness :
  exists shown df df10,
    load_data (Reachable event_columns (rows scenario_frame)) None 200
    = (shown, inr df) /\
    load_data (Reachable event_columns (rows scenario_frame)) None 10
    = (shown, inr df10) /\
    raw_preview df = rows df10 /\
    (List.length (raw_preview df) <= 10)%nat.
Proof.
  apply raw_preview_is_top_ten; [|lia].
  cbn. repeat constructor; cbn; intuition discriminate.
Defined.

End Composition.
